(** * qupulse: the pulse-control hardware interface and the pulse-template exceptions

    A shallow embedding of [src/pulses/PulseControlInterface.py] and of
    [ParameterNotInPulseTemplateException] from [src/pulses/PulseTemplate.py].

    Conventions of the embedding:
    - Python [int] is [Z]; the arithmetic of Python [float] is the class
      [PyFloat], whose instance [binary64] is IEEE 754 double precision as
      CPython and numpy compute it, and whose instance [exact] idealises
      floats as rationals without rounding;
    - a Python call that may raise returns a [PyResult];
    - the registration callback is an external, side-effecting function: it
      is run on an explicit [World], and every invocation is recorded in a
      trace, so that "the callback was invoked n times" is a statement about
      the final environment;
    - the dict [registered_waveforms] is a [gmap] keyed by waveform value. *)

From Stdlib Require Import ZArith QArith Qround Lia.
From Stdlib Require Import SpecFloat.
From Stdlib Require Import Ascii DecimalString.
From Stdlib Require DecimalPos DecimalZ.
From stdpp Require Import base option list gmap strings.

Local Open Scope Z_scope.

(** ** Python results *)

Inductive PyExc (E : Type) : Type :=
| Exception (msg : string)       (* [raise Exception(msg)] *)
| ValueError                     (* [math.floor] of a NaN, [numpy.linspace] on a negative count *)
| OverflowError                  (* [math.floor] of an infinity *)
| IndexError                     (* a sequence index out of range *)
| KeyError                       (* a dict lookup of an absent key *)
| AttributeError                 (* an attribute the object does not have *)
| CallbackError (e : E).         (* whatever the registration callback raised *)
Arguments Exception {E} msg.
Arguments ValueError {E}.
Arguments OverflowError {E}.
Arguments IndexError {E}.
Arguments KeyError {E}.
Arguments AttributeError {E}.
Arguments CallbackError {E} e.

Inductive PyResult (E A : Type) : Type :=
| Return (a : A)
| Raise (e : PyExc E).
Arguments Return {E A} a.
Arguments Raise {E A} e.

(** ** Python floats

    The operations on floats the source uses, with [math.floor], which
    returns an [int] or raises. *)

Inductive Floor : Type :=
| Floored (z : Z)
| FloorOfInfinity      (* [OverflowError: cannot convert float infinity to integer] *)
| FloorOfNaN.          (* [ValueError: cannot convert float NaN to integer] *)

Class PyFloat (F : Type) : Type := {
  fmul : F -> F -> F;          (* [x * y] *)
  fdiv : F -> F -> F;          (* [x / y] on numpy floats: no exception *)
  fadd : F -> F -> F;          (* [x + y] *)
  fsub : F -> F -> F;          (* [x - y] *)
  of_int : Z -> F;             (* the float nearest to an [int] *)
  is_zero : F -> bool;         (* [x == 0] *)
  floor : F -> Floor           (* [math.floor(x)] *)
}.

(** Double precision. *)
Definition prec : Z := 53.
Definition emax : Z := 1024.

(** [math.floor] of a double [(-1)^s * m * 2^e]. *)
Definition SFfloor (x : spec_float) : Floor :=
  match x with
  | S754_zero _ => Floored 0
  | S754_finite s m e =>
      let v := cond_Zopp s (Zpos m) in
      Floored (if 0 <=? e then v * 2 ^ e else v / 2 ^ (- e))
  | S754_infinity _ => FloorOfInfinity
  | S754_nan => FloorOfNaN
  end.

(** IEEE 754 binary64 with rounding to nearest, ties to even. *)
#[global] Instance binary64 : PyFloat spec_float := {|
  fmul := SFmul prec emax;
  fdiv := SFdiv prec emax;
  fadd := SFadd prec emax;
  fsub := SFsub prec emax;
  of_int z := binary_normalize prec emax z 0 false;
  is_zero x := SFeqb x (S754_zero false);
  floor := SFfloor
|}.

(** Rationals: floats without rounding, infinities or NaN. *)
#[global] Instance exact : PyFloat Q := {|
  fmul := Qmult;
  fdiv := Qdiv;
  fadd := Qplus;
  fsub := Qminus;
  of_int := inject_Z;
  is_zero x := Qeq_bool x 0;
  floor x := Floored (Qfloor x)
|}.

(** ** Waveforms and instructions

    [Waveform] and [EXECInstruction] are imported by the source from
    [.Instructions], [InstructionBlock] from [.Sequencer]; the interface the
    source uses of them is the class below. Value equality ([__eq__]) of
    waveforms is equality of the embedding's type, and [__hash__] is [hash]. *)

Class WaveformClass (F Waveform : Type) `{Countable Waveform} := {
  duration : Waveform -> F;
  sample : Waveform -> list F -> list F;
  hash : Waveform -> Z
}.

Inductive Instruction (Waveform Other : Type) : Type :=
| EXECInstruction (waveform : Waveform)
| OtherInstruction (o : Other).
Arguments EXECInstruction {Waveform Other} waveform.
Arguments OtherInstruction {Waveform Other} o.

(** [isinstance(x, EXECInstruction)] *)
Definition is_EXECInstruction {W O} (x : Instruction W O) : bool :=
  match x with EXECInstruction _ => true | OtherInstruction _ => false end.

(** [instruction.waveform]; only evaluated on EXEC instructions. *)
Definition waveform_of {W O} (x : Instruction W O) : option W :=
  match x with EXECInstruction w => Some w | OtherInstruction _ => None end.

(** ** The structs handed to pulse control *)

Record WaveformData (F : Type) : Type := {
  wf : list F;
  marker : list F;
  clk : F
}.
Arguments wf {F} _.
Arguments marker {F} _.
Arguments clk {F} _.

Record WaveformStruct (F : Type) : Type := {
  ws_name : string;
  data : WaveformData F
}.
Arguments ws_name {F} _.
Arguments data {F} _.

Record PulseGroup : Type := {
  pulses : list Z;
  nrep : list Z;
  name : string;
  chan : Z;
  ctrl : string
}.

(** What [create_pulse_group] returns: the string [""] or a pulse group dict. *)
Inductive PyValue : Type :=
| PyStr (s : string)
| PyDict (g : PulseGroup).

(** ** The environment of a call and the monad of side-effecting Python code

    A raised exception does not undo side effects: both outcomes carry the
    environment reached. *)

Record Env (F World : Type) : Type := {
  world : World;                   (* state of the backend behind the callback *)
  calls : list (WaveformStruct F)  (* arguments of the callback invocations so far *)
}.
Arguments world {F World} _.
Arguments calls {F World} _.

Definition M (F World E A : Type) : Type := Env F World -> PyResult E A * Env F World.

Definition ret {F World E A} (a : A) : M F World E A := fun env => (Return a, env).

Definition raise {F World E A} (e : PyExc E) : M F World E A := fun env => (Raise e, env).

Definition bind {F World E A B} (m : M F World E A) (k : A -> M F World E B)
  : M F World E B :=
  fun env =>
    match m env with
    | (Return a, env') => k a env'
    | (Raise e, env') => (Raise e, env')
    end.

(** A computation without side effects, run inside [M]. *)
Definition lift {F World E A} (r : PyResult E A) : M F World E A := fun env => (r, env).

Notation "x <- m ;; k" := (bind m (fun x => k))
  (at level 100, m at next level, right associativity).

(** [for x in l: s = body(x, s)] *)
Fixpoint for_each {F World E A S} (body : A -> S -> M F World E S) (l : list A) (s : S)
  : M F World E S :=
  match l with
  | [] => ret s
  | x :: l' => s' <- body x s ;; for_each body l' s'
  end.

(** ** numpy and str helpers *)

(** [str(z)] for a Python int. *)
Definition str_of_int (z : Z) : string := NilZero.string_of_int (Z.to_int z).

(** [l[-1] = x] on a non-empty list. *)
Definition set_last {A} (l : list A) (x : A) : list A := <[Nat.pred (length l) := x]> l.

(** [numpy.linspace(start, stop, num)] with the default [endpoint=True]:
    [num] points [i * step + start], the last one overwritten by [stop] when
    there are at least two; a negative [num] raises [ValueError]. *)
Definition linspace `{PyFloat F} {E} (start stop : F) (num : Z) : PyResult E (list F) :=
  if num <? 0 then Raise ValueError
  else
    let div := num - 1 in
    let y := of_int <$> seqZ 0 num in
    let delta := fsub stop start in
    let y :=
      if 0 <? div then
        let step := fdiv delta (of_int div) in
        if is_zero step then (fun v => fmul (fdiv v (of_int div)) delta) <$> y
        else (fun v => fmul v step) <$> y
      else (fun v => fmul v delta) <$> y in
    let y := (fun v => fadd v start) <$> y in
    Return (if 1 <? num then set_last y stop else y).

(** [numpy.zeros_like(a)] *)
Definition zeros_like `{PyFloat F} (a : list F) : list F := (fun _ => of_int 0) <$> a.

(** ** PulseControlInterface *)

Record PulseControlInterface (F World E : Type) : Type := {
  register_pulse_callback : WaveformStruct F -> World -> (E + Z) * World;
  sample_rate : F;
  time_scaling : F
}.
Arguments register_pulse_callback {F World E} _ _ _.
Arguments sample_rate {F World E} _.
Arguments time_scaling {F World E} _.

(** Local variables of the loop of [create_pulse_group]. *)
Record Locals (Waveform : Type) `{Countable Waveform} : Type := {
  pulse_group : PulseGroup;
  registered_waveforms : gmap Waveform Z
}.
Arguments pulse_group {Waveform _ _} _.
Arguments registered_waveforms {Waveform _ _} _.

Section Interface.
Context `{PyFloat F} `{WaveformClass F Waveform} {Other World E : Type}.
Local Abbreviation Self := (PulseControlInterface F World E).
Local Abbreviation InstructionBlock := (list (Instruction Waveform Other)).

(** [self.__register_pulse_callback(waveform_struct)] *)
Definition call_callback (self : Self) (waveform_struct : WaveformStruct F)
  : M F World E Z :=
  fun env =>
    let '(r, world') := register_pulse_callback self waveform_struct (world env) in
    let env' := {| world := world'; calls := calls env ++ [waveform_struct] |} in
    match r with
    | inr id => (Return id, env')
    | inl e => (Raise (CallbackError e), env')
    end.

(** ['wf_{}'.format(hash(waveform))] *)
Definition get_waveform_name (waveform : Waveform) : string :=
  "wf_" +:+ str_of_int (hash waveform).

(** [floor(waveform.duration * self.__time_scaling * self.__sample_rate) + 1] *)
Definition sample_count (self : Self) (waveform : Waveform) : PyResult E Z :=
  match floor (fmul (fmul (duration waveform) (time_scaling self)) (sample_rate self)) with
  | Floored z => Return (z + 1)
  | FloorOfInfinity => Raise OverflowError
  | FloorOfNaN => Raise ValueError
  end.

(** [numpy.linspace(0, waveform.duration, sample_count)] *)
Definition sample_times (self : Self) (waveform : Waveform) : PyResult E (list F) :=
  match sample_count self waveform with
  | Raise e => Raise e
  | Return sample_count => linspace (of_int 0) (duration waveform) sample_count
  end.

Definition create_waveform_struct (self : Self) (waveform : Waveform) (name : string)
  : PyResult E (WaveformStruct F) :=
  match sample_times self waveform with
  | Raise e => Raise e
  | Return times =>
      let sampled_waveform := sample waveform times in
      Return {| ws_name := name;
                data := {| wf := sampled_waveform;
                           marker := zeros_like sampled_waveform;
                           clk := sample_rate self |} |}
  end.

(** [if waveform not in registered_waveforms: ...]: an unregistered waveform
    is converted and handed to the callback, whose id is stored. *)
Definition register_if_new (self : Self) (waveform : Waveform)
    (registered_waveforms : gmap Waveform Z) : M F World E (gmap Waveform Z) :=
  match registered_waveforms !! waveform with
  | None =>
      let name := get_waveform_name waveform in
      waveform_struct <- lift (create_waveform_struct self waveform name) ;;
      id <- call_callback self waveform_struct ;;
      ret (<[waveform := id]> registered_waveforms)
  | Some _ => ret registered_waveforms
  end.

(** [if pulse_group['pulses'] and pulse_group['pulses'][-1] == id:
       pulse_group['nrep'][-1] += 1
     else:
       pulse_group['pulses'].append(id); pulse_group['nrep'].append(1)] *)
Definition repeat_or_append (pulse_group : PulseGroup) (id : Z) : PyResult E PulseGroup :=
  let appended :=
    {| pulses := pulses pulse_group ++ [id]; nrep := nrep pulse_group ++ [1];
       name := name pulse_group; chan := chan pulse_group; ctrl := ctrl pulse_group |} in
  match last (pulses pulse_group) with
  | Some p =>
      if p =? id then
        match last (nrep pulse_group) with
        | Some n =>
            Return {| pulses := pulses pulse_group;
                      nrep := set_last (nrep pulse_group) (n + 1);
                      name := name pulse_group; chan := chan pulse_group;
                      ctrl := ctrl pulse_group |}
        | None => Raise IndexError
        end
      else Return appended
  | None => Return appended
  end.

(** The body of [for waveform in waveforms: ...]. *)
Definition loop_body (self : Self) (waveform : Waveform) (st : Locals Waveform)
  : M F World E (Locals Waveform) :=
  registered <- register_if_new self waveform (registered_waveforms st) ;;
  match registered !! waveform with
  | None => raise KeyError
  | Some id =>
      g <- lift (repeat_or_append (pulse_group st) id) ;;
      ret {| pulse_group := g; registered_waveforms := registered |}
  end.

Definition create_pulse_group (self : Self) (block : InstructionBlock) (name : string)
  : M F World E PyValue :=
  if negb (forallb is_EXECInstruction block) then
    raise (Exception "Hardware based branching is not supported by pulse-control.")
  else
    match mapM waveform_of block with
    | None => raise AttributeError
    | Some waveforms =>
        match waveforms with
        | [] => ret (PyStr "")
        | _ :: _ =>
            st <- for_each (loop_body self) waveforms
                    {| pulse_group := {| pulses := []; nrep := []; name := name;
                                         chan := 1; ctrl := "notrig" |};
                       registered_waveforms := ∅ |} ;;
            ret (PyDict (pulse_group st))
        end
    end.

End Interface.

(** ** PulseTemplate.py: ParameterNotInPulseTemplateException *)

Module PulseTemplate.

(** How the replacement fields met so far were numbered: [str.format] refuses
    to mix [{}] with [{0}]. *)
Inductive FieldNumbering : Type :=
| Unnumbered
| Automatic (next : nat)
| Manual.

(** The decimal value of a field name made of digits only. *)
Fixpoint field_index (field : string) (acc : nat) : option nat :=
  match field with
  | EmptyString => Some acc
  | String c rest =>
      let d := Ascii.nat_of_ascii c in
      if (48 <=? d)%nat && (d <=? 57)%nat
      then field_index rest (10 * acc + (d - 48))%nat
      else None
  end.

(** The value a replacement field stands for, and the numbering after it. *)
Definition resolve_field {E} (field : string) (args : list string) (numbering : FieldNumbering)
  : PyResult E (string * FieldNumbering) :=
  match field with
  | EmptyString =>
      match numbering with
      | Manual => Raise ValueError
      | Unnumbered =>
          match args !! 0%nat with
          | Some a => Return (a, Automatic 1)
          | None => Raise IndexError
          end
      | Automatic n =>
          match args !! n with
          | Some a => Return (a, Automatic (S n))
          | None => Raise IndexError
          end
      end
  | String _ _ =>
      match field_index field 0 with
      | None => Raise KeyError
      | Some n =>
          match numbering with
          | Automatic _ => Raise ValueError
          | _ =>
              match args !! n with
              | Some a => Return (a, Manual)
              | None => Raise IndexError
              end
          end
      end
  end.

(** [fmt.format(a0, a1, ...)] for string arguments, on the fragment of the format
    language with literal text, the escapes [{{] and [}}], and the fields [{}]
    and [{N}]. [field] is [Some f] while inside a field whose name so far is
    [f]; [out] is the text produced so far. *)
Fixpoint format_from {E} (fmt : string) (field : option string) (args : list string)
    (numbering : FieldNumbering) (out : string) : PyResult E string :=
  match field with
  | Some f =>
      match fmt with
      | EmptyString => Raise ValueError
      | String "}"%char rest =>
          match resolve_field f args numbering with
          | Raise e => Raise e
          | Return (a, numbering') => format_from rest None args numbering' (out +:+ a)
          end
      | String c rest => format_from rest (Some (f +:+ String c EmptyString)) args numbering out
      end
  | None =>
      match fmt with
      | EmptyString => Return out
      | String "{"%char (String "{"%char rest) => format_from rest None args numbering (out +:+ "{")
      | String "}"%char (String "}"%char rest) => format_from rest None args numbering (out +:+ "}")
      | String "{"%char rest => format_from rest (Some EmptyString) args numbering out
      | String "}"%char _ => Raise ValueError
      | String c rest => format_from rest None args numbering (out +:+ String c EmptyString)
      end
  end.

Definition format {E} (fmt : string) (args : list string) : PyResult E string :=
  format_from fmt None args Unnumbered EmptyString.

Record ParameterNotInPulseTemplateException (PulseTemplate : Type) : Type := {
  name : string;
  pulse_template : PulseTemplate
}.
Arguments name {PulseTemplate} _.
Arguments pulse_template {PulseTemplate} _.

(** [ParameterNotInPulseTemplateException.__str__] *)
Definition __str__ {PulseTemplate E} (self : ParameterNotInPulseTemplateException PulseTemplate)
  : PyResult E string :=
  format "Parameter {1} not found" [name self].

End PulseTemplate.

(** ** Specification-side functions *)

(** Python's [sum]. *)
Definition sum (l : list Z) : Z := foldr Z.add 0 l.

(** The waveforms of [ws] that are not in [seen], each once, in the order of
    their first occurrence. *)
Fixpoint first_occurrences `{Countable W} (seen : gset W) (ws : list W) : list W :=
  match ws with
  | [] => []
  | w :: ws' =>
      if decide (w ∈ seen) then first_occurrences seen ws'
      else w :: first_occurrences ({[w]} ∪ seen) ws'
  end.

(** Consecutive entries of a list differ: [l[i] != l[i+1]]. *)
Definition no_adjacent_duplicates (l : list Z) : Prop :=
  forall (i : nat) p q, l !! i = Some p -> l !! S i = Some q -> p <> q.

(** The invariant of the pulse group under construction. *)
Definition well_formed (g : PulseGroup) : Prop :=
  length (pulses g) = length (nrep g)
  /\ no_adjacent_duplicates (pulses g)
  /\ Forall (fun n => 1 <= n) (nrep g).

(** The executions a pulse group stands for, one id per execution:
    [[p for p, n in zip(pulses, nrep) for _ in range(n)]]. *)
Definition expand (pulses nrep : list Z) : list Z :=
  concat (zip_with (fun p n => replicate (Z.to_nat n) p) pulses nrep).

(** The callback run on the structs [ss] one after the other from the backend
    state [world0]: the ids it returns and the state it leaves, if it never
    raises. *)
Fixpoint run_callback {F World E} (self : PulseControlInterface F World E)
    (ss : list (WaveformStruct F)) (world0 : World) : option (list Z * World) :=
  match ss with
  | [] => Some ([], world0)
  | s :: ss' =>
      match register_pulse_callback self s world0 with
      | (inr id, world1) =>
          match run_callback self ss' world1 with
          | Some (ids, world2) => Some (id :: ids, world2)
          | None => None
          end
      | (inl _, _) => None
      end
  end.

(** A registration callback that never raises. *)
Definition callback_total {F World E} (self : PulseControlInterface F World E) : Prop :=
  forall s world0, exists id world', register_pulse_callback self s world0 = (inr id, world').

(** The message of the exception raised on a block with branching. *)
Definition branching_message : string :=
  "Hardware based branching is not supported by pulse-control.".

(** A waveform that can be sampled: [math.floor] succeeds and the count is
    not negative. *)
Definition samplable `{PyFloat F} `{WaveformClass F Waveform} {World E}
    (self : PulseControlInterface F World E) (w : Waveform) : Prop :=
  exists n, sample_count (E:=E) self w = Return n /\ 0 <= n.

(** ** Concrete interfaces on which the model is run *)

(** Double precision, as the program runs. *)
Module Demo.

(** The instructions of the sequencer other than EXEC. *)
Inductive Branching : Type := CJMPInstruction | GOTOInstruction | STOPInstruction.

(** A linear ramp of [k] time units, rising to [k * k]. *)
#[global] Instance ramp : WaveformClass spec_float nat := {|
  duration k := of_int (Z.of_nat k);
  sample k times := (fun t => fmul t (of_int (Z.of_nat k))) <$> times;
  hash k := Z.of_nat k
|}.

(** The double nearest to 0.001, the default time scaling. *)
Definition milli : spec_float := fdiv (of_int 1) (of_int 1000).

(** The double nearest to 0.01. *)
Definition centi : spec_float := fdiv (of_int 1) (of_int 100).

(** A backend that numbers the registered pulses from its counter. *)
Definition counting (_ : WaveformStruct spec_float) (next : Z) : (unit + Z) * Z :=
  (inr next, next + 1).

(** A backend that files every pulse under the same id. *)
Definition constant (_ : WaveformStruct spec_float) (w : unit) : (unit + Z) * unit :=
  (inr 7, w).

Definition pci : PulseControlInterface spec_float Z unit :=
  {| register_pulse_callback := counting; sample_rate := of_int 10; time_scaling := milli |}.

Definition start : Env spec_float Z := {| world := 0; calls := [] |}.

Definition block (ws : list nat) : list (Instruction nat Branching) := EXECInstruction <$> ws.

(** A backend that refuses the pulse named [wf_2] and numbers the others. *)
Definition refusing (s : WaveformStruct spec_float) (next : Z) : (unit + Z) * Z :=
  if String.eqb (ws_name s) "wf_2" then (inl tt, next) else (inr next, next + 1).

Definition pci_refusing : PulseControlInterface spec_float Z unit :=
  {| register_pulse_callback := refusing; sample_rate := of_int 10; time_scaling := milli |}.

Definition pci_constant : PulseControlInterface spec_float unit unit :=
  {| register_pulse_callback := constant; sample_rate := of_int 10; time_scaling := milli |}.

(** An interface sampling at 100 Hz with time scaling 0.01. *)
Definition pci_centi : PulseControlInterface spec_float Z unit :=
  {| register_pulse_callback := counting; sample_rate := of_int 100; time_scaling := centi |}.

(** The call on the counting backend, from its initial state. *)
Definition run (ws : list nat) : PyResult unit PyValue * Env spec_float Z :=
  create_pulse_group pci (block ws) "g" start.

End Demo.

(** Exact rational arithmetic, the idealisation. *)
Module Ideal.

(** A linear ramp of [k] time units, rising to [k * k]. *)
#[global] Instance ramp : WaveformClass Q N := {|
  duration k := inject_Z (Z.of_N k);
  sample k times := (fun t => (t * inject_Z (Z.of_N k))%Q) <$> times;
  hash k := Z.of_N k
|}.

Definition pci : PulseControlInterface Q Z unit :=
  {| register_pulse_callback := fun _ next => (inr next, next + 1);
     sample_rate := 10%Q; time_scaling := (1 # 1000)%Q |}.

(** The interface sampling at 100 Hz with time scaling 0.01. *)
Definition pci_centi : PulseControlInterface Q Z unit :=
  {| register_pulse_callback := fun _ next => (inr next, next + 1);
     sample_rate := 100%Q; time_scaling := (1 # 100)%Q |}.

End Ideal.

(** * Properties *)

(** ** The model runs *)

Example str_of_int_examples :
  str_of_int 0 = "0" /\ str_of_int (-35) = "-35" /\ str_of_int 120 = "120".
Proof. repeat split; reflexivity. Qed.

Example format_examples :
  @PulseTemplate.format unit "Parameter {0} not {{found}} {0}" ["foo"]
    = Return "Parameter foo not {found} foo"
  /\ @PulseTemplate.format unit "a{}b{}" ["x"; "y"] = Return "axby"
  /\ @PulseTemplate.format unit "a{}b{1}" ["x"; "y"] = Raise ValueError
  /\ @PulseTemplate.format unit "a}b" ["x"] = Raise ValueError.
Proof. repeat split; reflexivity. Qed.

Example create_pulse_group_example :
  let '(r, env) := create_pulse_group Demo.pci (Demo.block [1; 1; 300; 1]%nat) "g" Demo.start in
  r = Return (PyDict {| pulses := [0; 1; 0]; nrep := [2; 1; 1]; name := "g";
                        chan := 1; ctrl := "notrig" |})
  /\ world env = 2
  /\ ws_name <$> calls env = ["wf_1"; "wf_300"]
  /\ (length ∘ wf ∘ data) <$> calls env = [1; 4]%nat.
Proof. vm_compute. repeat split. Qed.

(** ** C10: the message of ParameterNotInPulseTemplateException *)

(** C10. Converting a ParameterNotInPulseTemplateException to a string never
    yields a message: for every parameter name and pulse template, [__str__]
    formats ["Parameter {1} not found"] with the single argument [self.name],
    index 1 is out of range, and the conversion raises IndexError. *)
Theorem parameter_not_in_pulse_template_str_raises :
  forall (PulseTemplate E : Type) (name : string) (pulse_template : PulseTemplate),
    @PulseTemplate.__str__ PulseTemplate E
      {| PulseTemplate.name := name; PulseTemplate.pulse_template := pulse_template |}
    = Raise IndexError.
Proof. intros. reflexivity. Qed.

Section InterfaceFacts.
Context `{PyFloat F} `{WaveformClass F Waveform} {Other World E : Type}.
Implicit Types (self : PulseControlInterface F World E).
Implicit Types (block : list (Instruction Waveform Other)).
Implicit Types (ws : list Waveform) (w : Waveform) (env : Env F World).
Implicit Types (g : PulseGroup) (st : Locals Waveform).

(** The block of EXEC instructions playing the waveforms [ws] in order. *)
Local Abbreviation execs ws := (EXECInstruction (Other:=Other) <$> ws).

(** ** Validation of the block *)

Lemma create_pulse_group_invalid self block name env :
  forallb is_EXECInstruction block = false ->
  create_pulse_group self block name env = (Raise (Exception branching_message), env).
Proof. intros Hall. unfold create_pulse_group. rewrite Hall. reflexivity. Qed.

Lemma forallb_EXEC ws :
  forallb is_EXECInstruction (execs ws) = true.
Proof. induction ws as [|w ws IH]; simpl; auto. Qed.

Lemma mapM_waveform_of_EXEC ws :
  mapM waveform_of (execs ws) = Some ws.
Proof.
  apply mapM_Some. induction ws as [|w ws IH]; constructor; [reflexivity | exact IH].
Qed.

Lemma omap_waveform_of_EXEC ws : omap waveform_of (execs ws) = ws.
Proof. induction ws as [|w ws IH]; simpl; [reflexivity|]. f_equal. exact IH. Qed.

Lemma all_EXEC_inv block :
  forallb is_EXECInstruction block = true -> exists ws, block = execs ws.
Proof.
  induction block as [|x block IH]; simpl; intros Hall.
  - exists []. reflexivity.
  - apply andb_prop in Hall as [Hx Hall]. destruct (IH Hall) as [ws ->].
    destruct x as [w|o]; [|discriminate]. exists (w :: ws). reflexivity.
Qed.

(** On a block of EXEC instructions the call is the sentinel or the loop. *)
Lemma create_pulse_group_EXEC self ws name env :
  create_pulse_group self (execs ws) name env =
  match ws with
  | [] => (Return (PyStr ""), env)
  | _ :: _ =>
      (st <- for_each (loop_body self) ws
               {| pulse_group := {| pulses := []; nrep := []; name := name;
                                    chan := 1; ctrl := "notrig" |};
                  registered_waveforms := ∅ |} ;;
       ret (PyDict (pulse_group st))) env
  end.
Proof.
  unfold create_pulse_group. rewrite forallb_EXEC, mapM_waveform_of_EXEC. simpl.
  destruct ws; reflexivity.
Qed.

(** ** Lists: last element, sum *)

Lemma set_last_snoc {A} (l : list A) (x y : A) : set_last (l ++ [x]) y = l ++ [y].
Proof.
  unfold set_last. rewrite length_app. simpl.
  replace (Nat.pred (length l + 1)) with (length l + 0)%nat by lia.
  rewrite insert_app_r. reflexivity.
Qed.

Lemma sum_snoc (l : list Z) (x : Z) : sum (l ++ [x]) = sum l + x.
Proof. unfold sum. induction l as [|y l IH]; simpl; [lia|]. rewrite IH. lia. Qed.

Lemma no_adjacent_duplicates_snoc (l : list Z) (x : Z) :
  no_adjacent_duplicates l -> last l <> Some x -> no_adjacent_duplicates (l ++ [x]).
Proof.
  intros Hl Hlast i p q Hp Hq.
  destruct (decide (S i < length l)%nat) as [Hlt|Hge].
  - rewrite lookup_app_l in Hp by lia. rewrite lookup_app_l in Hq by lia. eauto.
  - assert (S i = length l) as Hi.
    { apply lookup_lt_Some in Hq. rewrite length_app in Hq. simpl in Hq. lia. }
    rewrite lookup_app_l in Hp by lia.
    rewrite lookup_app_r in Hq by lia.
    replace (S i - length l)%nat with 0%nat in Hq by lia. simpl in Hq.
    injection Hq as <-. intros ->. apply Hlast.
    rewrite last_lookup. rewrite <- Hi. exact Hp.
Qed.

(** C3. A block with an instruction that is not an EXEC instruction, at any
    position, makes create_pulse_group raise the branching exception (and
    leaves the environment as it was). *)
Theorem create_pulse_group_rejects_branching self block block' x name env :
  is_EXECInstruction x = false ->
  create_pulse_group self (block ++ x :: block') name env
  = (Raise (Exception branching_message), env).
Proof.
  intros Hx. apply create_pulse_group_invalid.
  rewrite forallb_app. simpl. rewrite Hx. apply andb_false_r.
Qed.

(** C1 (a defect of the code). On the empty block, which holds no EXEC
    instruction and passes the validation, create_pulse_group returns the
    empty string, for every interface, name and environment: the guard of
    lines 80-81 returns before the dictionary of lines 83-87 is built, so the
    call never returns a pulse group there, although the signature and the
    docstring of the method promise a dictionary. *)
Theorem create_pulse_group_empty_block self name env :
  create_pulse_group self (@nil (Instruction Waveform Other)) name env
  = (Return (PyStr ""), env)
  /\ forall g env',
       create_pulse_group self (@nil (Instruction Waveform Other)) name env
       <> (Return (PyDict g), env').
Proof. split; [reflexivity | discriminate]. Qed.

(** ** One run-length step *)

Lemma repeat_or_append_repeat g id ps ns n :
  pulses g = ps ++ [id] -> nrep g = ns ++ [n] ->
  repeat_or_append (E:=E) g id
  = Return {| pulses := pulses g; nrep := ns ++ [n + 1];
              name := name g; chan := chan g; ctrl := ctrl g |}.
Proof.
  intros Hp Hn. unfold repeat_or_append.
  rewrite Hp, last_snoc, Z.eqb_refl, Hn, last_snoc, set_last_snoc. reflexivity.
Qed.

Lemma repeat_or_append_append g id :
  last (pulses g) <> Some id ->
  repeat_or_append (E:=E) g id
  = Return {| pulses := pulses g ++ [id]; nrep := nrep g ++ [1];
              name := name g; chan := chan g; ctrl := ctrl g |}.
Proof.
  intros Hlast. unfold repeat_or_append.
  destruct (last (pulses g)) as [p|]; [|reflexivity].
  destruct (Z.eqb_spec p id) as [->|]; [congruence | reflexivity].
Qed.

(** On a well-formed group the step cannot fail, keeps the group well formed,
    counts one more execution and leaves [id] as the last pulse. *)
Lemma repeat_or_append_spec g id :
  well_formed g ->
  exists g', repeat_or_append (E:=E) g id = Return g'
    /\ well_formed g'
    /\ sum (nrep g') = sum (nrep g) + 1
    /\ last (pulses g') = Some id
    /\ name g' = name g /\ chan g' = chan g /\ ctrl g' = ctrl g.
Proof.
  intros (Hlen & Hadj & Hpos).
  destruct (decide (last (pulses g) = Some id)) as [Hlast|Hlast].
  - apply last_Some in Hlast as [ps Hps].
    destruct (last (nrep g)) as [n|] eqn:Hn.
    2:{ apply last_None in Hn. rewrite Hps, Hn, length_app in Hlen. simpl in Hlen. lia. }
    apply last_Some in Hn as [ns Hn].
    eexists. split; [apply (repeat_or_append_repeat g id ps ns n); assumption|].
    simpl. rewrite Hn in *. rewrite !sum_snoc. repeat split; simpl; try reflexivity.
    + rewrite Hlen, !length_app. reflexivity.
    + exact Hadj.
    + apply Forall_app in Hpos as [Hns Hn1]. apply Forall_app. split; [exact Hns|].
      apply Forall_inv in Hn1. apply Forall_singleton. cbv beta in *. lia.
    + lia.
    + rewrite Hps. apply last_snoc.
  - eexists. split; [apply repeat_or_append_append; assumption|].
    simpl. rewrite sum_snoc. repeat split; simpl; try reflexivity.
    + rewrite !length_app, Hlen. reflexivity.
    + apply no_adjacent_duplicates_snoc; assumption.
    + apply Forall_app. split; [exact Hpos|]. apply Forall_singleton. cbv beta. lia.
    + apply last_snoc.
Qed.

(** ** One iteration of the loop *)

Lemma loop_body_known self w st env id :
  registered_waveforms st !! w = Some id ->
  loop_body self w st env =
  (match repeat_or_append (pulse_group st) id with
   | Return g => Return {| pulse_group := g; registered_waveforms := registered_waveforms st |}
   | Raise e => Raise e
   end, env).
Proof.
  intros Hw. unfold loop_body, register_if_new, bind, lift, ret. rewrite Hw. simpl.
  rewrite Hw. destruct (repeat_or_append (pulse_group st) id); reflexivity.
Qed.

Lemma loop_body_fresh self w st env s id world' :
  registered_waveforms st !! w = None ->
  create_waveform_struct self w (get_waveform_name w) = Return s ->
  register_pulse_callback self s (world env) = (inr id, world') ->
  loop_body self w st env =
  (match repeat_or_append (pulse_group st) id with
   | Return g =>
       Return {| pulse_group := g;
                 registered_waveforms := <[w := id]> (registered_waveforms st) |}
   | Raise e => Raise e
   end, {| world := world'; calls := calls env ++ [s] |}).
Proof.
  intros Hw Hs Hcb. unfold loop_body, register_if_new, bind, lift, ret, call_callback.
  rewrite Hw, Hs. simpl. rewrite Hcb. simpl. rewrite lookup_insert_eq.
  destruct (repeat_or_append (pulse_group st) id); reflexivity.
Qed.

Lemma loop_body_struct_fails self w st env e :
  registered_waveforms st !! w = None ->
  create_waveform_struct self w (get_waveform_name w) = Raise e ->
  loop_body self w st env = (Raise e, env).
Proof.
  intros Hw Hs. unfold loop_body, register_if_new, bind, lift. rewrite Hw, Hs. reflexivity.
Qed.

Lemma loop_body_callback_fails self w st env s c world' :
  registered_waveforms st !! w = None ->
  create_waveform_struct self w (get_waveform_name w) = Return s ->
  register_pulse_callback self s (world env) = (inl c, world') ->
  loop_body self w st env
  = (Raise (CallbackError c), {| world := world'; calls := calls env ++ [s] |}).
Proof.
  intros Hw Hs Hcb. unfold loop_body, register_if_new, bind, lift, call_callback.
  rewrite Hw, Hs. simpl. rewrite Hcb. reflexivity.
Qed.

(** What an iteration that returns has done. *)
Lemma loop_body_returns self w st env st' env' :
  well_formed (pulse_group st) ->
  loop_body self w st env = (Return st', env') ->
  exists id,
    registered_waveforms st' !! w = Some id
    /\ repeat_or_append (E:=E) (pulse_group st) id = Return (pulse_group st')
    /\ ((registered_waveforms st !! w = Some id
         /\ registered_waveforms st' = registered_waveforms st /\ env' = env)
        \/ (registered_waveforms st !! w = None
            /\ registered_waveforms st' = <[w := id]> (registered_waveforms st)
            /\ exists s world',
                 create_waveform_struct self w (get_waveform_name w) = Return s
                 /\ register_pulse_callback self s (world env) = (inr id, world')
                 /\ env' = {| world := world'; calls := calls env ++ [s] |})).
Proof.
  intros Hwf Hrun.
  destruct (registered_waveforms st !! w) as [id|] eqn:Hw.
  - rewrite (loop_body_known _ _ _ _ id Hw) in Hrun.
    destruct (repeat_or_append_spec (pulse_group st) id Hwf) as (g' & Hg' & _).
    rewrite Hg' in Hrun. injection Hrun as <- <-. exists id. simpl.
    split; [exact Hw|]. split; [exact Hg'|]. left. auto.
  - destruct (create_waveform_struct self w (get_waveform_name w)) as [s|e] eqn:Hs.
    2:{ rewrite (loop_body_struct_fails _ _ _ _ e Hw Hs) in Hrun. discriminate. }
    destruct (register_pulse_callback self s (world env)) as [[c|id] world'] eqn:Hcb.
    { rewrite (loop_body_callback_fails _ _ _ _ s c world' Hw Hs Hcb) in Hrun. discriminate. }
    rewrite (loop_body_fresh _ _ _ _ s id world' Hw Hs Hcb) in Hrun.
    destruct (repeat_or_append_spec (pulse_group st) id Hwf) as (g' & Hg' & _).
    rewrite Hg' in Hrun. injection Hrun as <- <-. exists id. simpl.
    rewrite lookup_insert_eq. split; [reflexivity|]. split; [exact Hg'|].
    right. eauto 10.
Qed.

(** The conversion of a waveform can only fail in [math.floor] (OverflowError,
    ValueError) or in [numpy.linspace] (ValueError). *)
Lemma sample_count_raises self w e :
  sample_count self w = Raise e -> e = ValueError \/ e = OverflowError.
Proof.
  unfold sample_count. destruct (floor _); [discriminate| |]; intros [= <-]; auto.
Qed.

Lemma sample_times_raises self w e :
  sample_times self w = Raise e -> e = ValueError \/ e = OverflowError.
Proof.
  unfold sample_times. destruct (sample_count self w) as [n|e0] eqn:Hn.
  - unfold linspace. destruct (n <? 0); [|discriminate]. intros [= <-]. auto.
  - intros [= <-]. exact (sample_count_raises _ _ _ Hn).
Qed.

Lemma create_waveform_struct_raises self w name e :
  create_waveform_struct self w name = Raise e -> e = ValueError \/ e = OverflowError.
Proof.
  unfold create_waveform_struct.
  destruct (sample_times self w) as [times|e0] eqn:Ht; [discriminate|].
  intros [= <-]. exact (sample_times_raises _ _ _ Ht).
Qed.

(** An iteration can only fail in the conversion of the waveform or in the
    callback. *)
Lemma loop_body_raises self w st env e env' :
  well_formed (pulse_group st) ->
  loop_body self w st env = (Raise e, env') ->
  e = ValueError \/ e = OverflowError \/ exists c, e = CallbackError c.
Proof.
  intros Hwf Hrun.
  destruct (registered_waveforms st !! w) as [id|] eqn:Hw.
  - rewrite (loop_body_known _ _ _ _ id Hw) in Hrun.
    destruct (repeat_or_append_spec (pulse_group st) id Hwf) as (g' & Hg' & _).
    rewrite Hg' in Hrun. discriminate.
  - destruct (create_waveform_struct self w (get_waveform_name w)) as [s|e0] eqn:Hs.
    2:{ rewrite (loop_body_struct_fails _ _ _ _ e0 Hw Hs) in Hrun. injection Hrun as <- <-.
        destruct (create_waveform_struct_raises _ _ _ _ Hs); auto. }
    destruct (register_pulse_callback self s (world env)) as [[c|id] world'] eqn:Hcb.
    { rewrite (loop_body_callback_fails _ _ _ _ s c world' Hw Hs Hcb) in Hrun.
      injection Hrun as <- <-. right. right. eauto. }
    rewrite (loop_body_fresh _ _ _ _ s id world' Hw Hs Hcb) in Hrun.
    destruct (repeat_or_append_spec (pulse_group st) id Hwf) as (g' & Hg' & _).
    rewrite Hg' in Hrun. discriminate.
Qed.

(** ** The whole loop *)

Lemma for_each_app {A S} (body : A -> S -> M F World E S) (l1 l2 : list A) (s : S) env :
  for_each body (l1 ++ l2) s env = (s' <- for_each body l1 s ;; for_each body l2 s') env.
Proof.
  revert s env. induction l1 as [|x l1 IH]; intros s env; simpl; [reflexivity|].
  unfold bind. destruct (body x s env) as [[s1|e] env1]; [|reflexivity].
  rewrite IH. reflexivity.
Qed.

(** What a loop that returns has done: the group stays well formed, every
    waveform is counted once in [nrep], the callback has received, in order,
    the structs of the waveforms that were not registered yet, each once, and
    the last waveform played is the last pulse of the group. *)
Lemma loop_returns self ws : forall st env st' env',
  well_formed (pulse_group st) ->
  for_each (loop_body self) ws st env = (Return st', env') ->
  well_formed (pulse_group st')
  /\ sum (nrep (pulse_group st')) = sum (nrep (pulse_group st)) + Z.of_nat (length ws)
  /\ name (pulse_group st') = name (pulse_group st)
  /\ chan (pulse_group st') = chan (pulse_group st)
  /\ ctrl (pulse_group st') = ctrl (pulse_group st)
  /\ (exists ss,
        calls env' = calls env ++ ss
        /\ Forall2 (fun w s => create_waveform_struct self w (get_waveform_name w) = Return s)
             (first_occurrences (dom (registered_waveforms st)) ws) ss)
  /\ (forall w, last ws = Some w ->
        exists id, registered_waveforms st' !! w = Some id
                   /\ last (pulses (pulse_group st')) = Some id).
Proof.
  induction ws as [|w ws IH]; intros st env st' env' Hwf Hrun.
  - injection Hrun as <- <-. simpl. repeat split; try apply Hwf; try lia.
    + exists []. rewrite app_nil_r. split; [reflexivity | constructor].
    + intros w Hw. discriminate.
  - simpl in Hrun. unfold bind in Hrun.
    destruct (loop_body self w st env) as [[st1|e] env1] eqn:Hstep; [|discriminate].
    destruct (loop_body_returns _ _ _ _ _ _ Hwf Hstep) as (id & Hid & Hg & Hreg).
    destruct (repeat_or_append_spec (pulse_group st) id Hwf)
      as (g' & Hg' & Hwf1 & Hsum1 & Hlast1 & Hname1 & Hchan1 & Hctrl1).
    rewrite Hg in Hg'. injection Hg' as <-.
    destruct (IH _ _ _ _ Hwf1 Hrun) as (Hwf' & Hsum & Hname & Hchan & Hctrl & Hcalls & Hlast).
    split; [exact Hwf'|]. split; [rewrite Hsum, Hsum1, length_cons; lia|].
    split; [congruence|]. split; [congruence|]. split; [congruence|]. split.
    + destruct Hcalls as (ss & Hss & Hall). simpl.
      destruct Hreg as [(Hw & Hsame & ->) | (Hw & Hnew & s & world' & Hs & Hcb & ->)].
      * rewrite Hsame in Hall. apply elem_of_dom_2 in Hw.
        rewrite decide_True by exact Hw. eauto.
      * rewrite Hnew, dom_insert_L in Hall. apply not_elem_of_dom_2 in Hw.
        rewrite decide_False by exact Hw. exists (s :: ss). simpl in Hss.
        rewrite Hss, <- app_assoc. split; [reflexivity|]. constructor; assumption.
    + intros w0 Hw0. destruct ws as [|w1 ws].
      * injection Hw0 as <-. injection Hrun as <- <-. eauto.
      * apply Hlast. exact Hw0.
Qed.

(** The loop can only fail in the conversion of a waveform or in the
    callback; in particular not with the branching exception. *)
Lemma loop_raises self ws : forall st env e env',
  well_formed (pulse_group st) ->
  for_each (loop_body self) ws st env = (Raise e, env') ->
  e = ValueError \/ e = OverflowError \/ exists c, e = CallbackError c.
Proof.
  induction ws as [|w ws IH]; intros st env e env' Hwf Hrun; [discriminate|].
  simpl in Hrun. unfold bind in Hrun.
  destruct (loop_body self w st env) as [[st1|e1] env1] eqn:Hstep.
  - destruct (loop_body_returns _ _ _ _ _ _ Hwf Hstep) as (id & _ & Hg & _).
    destruct (repeat_or_append_spec (pulse_group st) id Hwf) as (g' & Hg' & Hwf1 & _).
    rewrite Hg in Hg'. injection Hg' as <-. eapply IH; eassumption.
  - injection Hrun as <- <-. eapply loop_body_raises; eassumption.
Qed.

(** ** Sampling *)

Lemma linspace_returns (start stop : F) (num : Z) :
  0 <= num ->
  exists times, linspace (E:=E) start stop num = Return times
                /\ Z.of_nat (length times) = num.
Proof.
  intros Hnum. unfold linspace. destruct (Z.ltb_spec num 0) as [|_]; [lia|].
  eexists. split; [reflexivity|].
  assert (forall l : list F, length (if 1 <? num then set_last l stop else l) = length l)
    as Hlast.
  { intros l. destruct (1 <? num); [apply length_insert | reflexivity]. }
  rewrite Hlast, length_fmap.
  destruct (0 <? num - 1); [destruct (is_zero _)|];
    rewrite !length_fmap, length_seqZ; lia.
Qed.

(** The number of samples is one more than the floor of the product. *)
Lemma sample_count_floor self w n :
  sample_count self w = Return n <->
  floor (fmul (fmul (duration w) (time_scaling self)) (sample_rate self)) = Floored (n - 1).
Proof.
  unfold sample_count. destruct (floor _) as [z| |]; split; intros Hn;
    try discriminate; injection Hn as Hn; f_equal; lia.
Qed.

Lemma create_waveform_struct_returns self w name n :
  sample_count self w = Return n ->
  0 <= n ->
  exists times,
    sample_times self w = Return times
    /\ Z.of_nat (length times) = n
    /\ create_waveform_struct self w name
       = Return {| ws_name := name;
                   data := {| wf := sample w times;
                              marker := zeros_like (sample w times);
                              clk := sample_rate self |} |}.
Proof.
  intros Hn Hcount. unfold create_waveform_struct, sample_times. rewrite Hn.
  destruct (linspace_returns (of_int 0) (duration w) _ Hcount) as (times & -> & Hlen).
  exists times. auto.
Qed.

(** Conversely, a struct is only built for a waveform that can be sampled. *)
Lemma create_waveform_struct_inv self w name s :
  create_waveform_struct self w name = Return s ->
  exists n times,
    sample_count self w = Return n /\ 0 <= n
    /\ sample_times self w = Return times
    /\ Z.of_nat (length times) = n
    /\ s = {| ws_name := name;
              data := {| wf := sample w times;
                         marker := zeros_like (sample w times);
                         clk := sample_rate self |} |}.
Proof.
  intros Hs. destruct (sample_count self w) as [n|e] eqn:Hn.
  2:{ unfold create_waveform_struct, sample_times in Hs. rewrite Hn in Hs. discriminate. }
  destruct (Z.ltb_spec n 0) as [Hneg|Hpos].
  { unfold create_waveform_struct, sample_times, linspace in Hs. rewrite Hn in Hs.
    destruct (Z.ltb_spec n 0); [discriminate | lia]. }
  destruct (create_waveform_struct_returns self w name n Hn Hpos) as (times & Ht & Hlen & Hs').
  rewrite Hs in Hs'. injection Hs' as ->. exists n, times. auto.
Qed.

Lemma create_waveform_struct_samplable self w name :
  samplable self w <-> exists s, create_waveform_struct self w name = Return s.
Proof.
  split.
  - intros (n & Hn & Hpos).
    destruct (create_waveform_struct_returns self w name n Hn Hpos) as (times & _ & _ & Hs).
    eauto.
  - intros (s & Hs).
    destruct (create_waveform_struct_inv _ _ _ _ Hs) as (n & times & Hn & Hpos & _).
    exists n. auto.
Qed.

(** With a callback that never raises and waveforms that can be sampled, the
    loop returns. *)
Lemma loop_total self ws : forall st env,
  callback_total self ->
  Forall (samplable self) ws ->
  well_formed (pulse_group st) ->
  exists st' env', for_each (loop_body self) ws st env = (Return st', env').
Proof.
  induction ws as [|w ws IH]; intros st env Hcb Hws Hwf; simpl.
  - eexists _, _. reflexivity.
  - apply Forall_cons_1 in Hws as [Hw Hws]. unfold bind.
    assert (exists st1 env1, loop_body self w st env = (Return st1, env1)
                             /\ well_formed (pulse_group st1)) as (st1 & env1 & -> & Hwf1).
    { destruct (registered_waveforms st !! w) as [id|] eqn:Hreg.
      - rewrite (loop_body_known _ _ _ _ id Hreg).
        destruct (repeat_or_append_spec (pulse_group st) id Hwf) as (g' & -> & Hwf' & _).
        eexists _, _. split; [reflexivity | exact Hwf'].
      - apply (create_waveform_struct_samplable self w (get_waveform_name w)) in Hw
          as (s & Hs).
        destruct (Hcb s (world env)) as (id & world' & Hid).
        rewrite (loop_body_fresh _ _ _ _ _ id world' Hreg Hs Hid).
        destruct (repeat_or_append_spec (pulse_group st) id Hwf) as (g' & -> & Hwf' & _).
        eexists _, _. split; [reflexivity | exact Hwf']. }
    apply IH; assumption.
Qed.

(** ** First occurrences *)

Lemma first_occurrences_elem (seen : gset Waveform) ws w :
  w ∈ first_occurrences seen ws <-> w ∈ ws /\ w ∉ seen.
Proof.
  revert seen. induction ws as [|w0 ws IH]; intros seen; simpl.
  - rewrite elem_of_nil. tauto.
  - destruct (decide (w0 ∈ seen)) as [Hin|Hout].
    + rewrite IH, elem_of_cons. split; [tauto|].
      intros [[->|Hw] Hseen]; [contradiction | auto].
    + rewrite !elem_of_cons, IH, not_elem_of_union, not_elem_of_singleton.
      destruct (decide (w = w0)) as [->|Hne]; tauto.
Qed.

Lemma first_occurrences_NoDup (seen : gset Waveform) ws :
  NoDup (first_occurrences seen ws).
Proof.
  revert seen. induction ws as [|w0 ws IH]; intros seen; simpl.
  - constructor.
  - destruct (decide (w0 ∈ seen)) as [Hin|Hout]; [apply IH|].
    constructor; [|apply IH]. rewrite first_occurrences_elem.
    rewrite not_elem_of_union, not_elem_of_singleton. tauto.
Qed.

(** ** create_pulse_group on a block of EXEC instructions *)

Lemma initial_group_well_formed name0 :
  well_formed {| pulses := []; nrep := []; name := name0; chan := 1; ctrl := "notrig" |}.
Proof.
  repeat split; simpl; [|constructor]. intros i p q Hp. rewrite lookup_nil in Hp. discriminate.
Qed.

(** Every pulse group returned comes from a non-empty block of EXEC
    instructions and satisfies the invariants of the loop. *)
Lemma create_pulse_group_returns self block name0 env g env' :
  create_pulse_group self block name0 env = (Return (PyDict g), env') ->
  exists ws,
    block = execs ws /\ ws <> []
    /\ well_formed g
    /\ sum (nrep g) = Z.of_nat (length block)
    /\ name g = name0 /\ chan g = 1 /\ ctrl g = "notrig"
    /\ exists ss,
         calls env' = calls env ++ ss
         /\ Forall2 (fun w s => create_waveform_struct self w (get_waveform_name w) = Return s)
              (first_occurrences ∅ ws) ss.
Proof.
  intros Hrun.
  destruct (forallb is_EXECInstruction block) eqn:Hall.
  2:{ rewrite (create_pulse_group_invalid _ _ _ _ Hall) in Hrun. discriminate. }
  destruct (all_EXEC_inv block Hall) as [ws ->]. exists ws.
  rewrite create_pulse_group_EXEC in Hrun. destruct ws as [|w ws]; [discriminate|].
  unfold bind, ret in Hrun.
  destruct (for_each _ _ _ _) as [[st'|e] env1] eqn:Hloop; [|discriminate].
  injection Hrun as <- <-.
  apply loop_returns in Hloop as (Hwf & Hsum & Hname & Hchan & Hctrl & Hcalls & _);
    [|apply initial_group_well_formed].
  simpl in *. rewrite dom_empty_L in Hcalls.
  split; [reflexivity|]. split; [discriminate|]. split; [exact Hwf|].
  split; [rewrite Hsum, length_fmap; simpl; lia|]. auto.
Qed.

(** A non-empty block of EXEC instructions compiles to a pulse group when
    the callback never raises and every waveform can be sampled. *)
Lemma create_pulse_group_total self ws name0 env :
  callback_total self ->
  Forall (samplable self) ws ->
  ws <> [] ->
  exists g env', create_pulse_group self (execs ws) name0 env = (Return (PyDict g), env').
Proof.
  intros Hcb Hws Hne. rewrite create_pulse_group_EXEC.
  destruct ws as [|w ws]; [congruence|]. unfold bind, ret.
  edestruct (loop_total self (w :: ws)) as (st' & env' & ->);
    [exact Hcb | exact Hws | apply initial_group_well_formed |].
  eauto.
Qed.

(** A block of EXEC instructions never raises the branching exception. *)
Lemma create_pulse_group_EXEC_no_branching self ws name0 env msg :
  fst (create_pulse_group self (execs ws) name0 env) <> Raise (Exception msg).
Proof.
  rewrite create_pulse_group_EXEC. destruct ws as [|w ws]; [discriminate|].
  unfold bind, ret. destruct (for_each _ _ _ _) as [[st'|e] env1] eqn:Hloop; [discriminate|].
  apply loop_raises in Hloop as [->|[->|[c ->]]];
    [discriminate..|apply initial_group_well_formed].
Qed.

Lemma create_pulse_group_EXEC_nonempty self ws name0 env :
  ws <> [] ->
  create_pulse_group self (execs ws) name0 env =
  (st <- for_each (loop_body self) ws
           {| pulse_group := {| pulses := []; nrep := []; name := name0;
                                chan := 1; ctrl := "notrig" |};
              registered_waveforms := ∅ |} ;;
   ret (PyDict (pulse_group st))) env.
Proof. intros Hne. rewrite create_pulse_group_EXEC. destruct ws; [congruence | reflexivity]. Qed.

(** ** Calls that go through *)

(** When every waveform met for the first time can be converted and the
    callback accepts the structs one after the other, the loop returns,
    having invoked the callback on exactly these structs. *)
Lemma loop_runs self ws : forall st env ss ids world',
  well_formed (pulse_group st) ->
  Forall2 (fun w s => create_waveform_struct self w (get_waveform_name w) = Return s)
    (first_occurrences (dom (registered_waveforms st)) ws) ss ->
  run_callback self ss (world env) = Some (ids, world') ->
  exists st',
    for_each (loop_body self) ws st env
    = (Return st', {| world := world'; calls := calls env ++ ss |}).
Proof.
  induction ws as [|w ws IH]; intros st env ss ids world' Hwf Hss Hcb; simpl in Hss.
  - apply Forall2_nil_inv_l in Hss as ->. injection Hcb as <- <-.
    exists st. rewrite app_nil_r. destruct env; reflexivity.
  - simpl. unfold bind.
    destruct (decide (w ∈ dom (registered_waveforms st))) as [Hin|Hout].
    + apply elem_of_dom in Hin as [id Hid].
      rewrite (loop_body_known _ _ _ _ id Hid).
      destruct (repeat_or_append_spec (pulse_group st) id Hwf) as (g' & -> & Hwf' & _).
      apply (IH {| pulse_group := g'; registered_waveforms := registered_waveforms st |}
               env ss ids world'); assumption.
    + apply Forall2_cons_inv_l in Hss as (s & ss' & Hs & Hss' & ->).
      simpl in Hcb.
      destruct (register_pulse_callback self s (world env)) as [[c|id] world1] eqn:Hreg;
        [discriminate|].
      destruct (run_callback self ss' world1) as [[ids' world2]|] eqn:Hrest; [|discriminate].
      injection Hcb as <- <-.
      rewrite (loop_body_fresh _ _ _ _ s id world1 (not_elem_of_dom_1 _ _ Hout) Hs Hreg).
      destruct (repeat_or_append_spec (pulse_group st) id Hwf) as (g' & -> & Hwf' & _).
      edestruct (IH {| pulse_group := g';
                       registered_waveforms := <[w := id]> (registered_waveforms st) |}
                    {| world := world1; calls := calls env ++ [s] |} ss' ids' world2)
        as (st' & Hst'); [exact Hwf' | simpl; rewrite dom_insert_L; exact Hss' | exact Hrest |].
      exists st'. rewrite Hst'. simpl. rewrite <- app_assoc. reflexivity.
Qed.

(** A non-empty block of EXEC instructions compiles as soon as the waveforms
    it plays can be converted and the callback accepts their structs in the
    order of their first appearance; the callback has then been invoked on
    exactly these structs. *)
Lemma create_pulse_group_runs self ws name0 env ss ids world' :
  ws <> [] ->
  Forall2 (fun w s => create_waveform_struct self w (get_waveform_name w) = Return s)
    (first_occurrences ∅ ws) ss ->
  run_callback self ss (world env) = Some (ids, world') ->
  exists g,
    create_pulse_group self (execs ws) name0 env
    = (Return (PyDict g), {| world := world'; calls := calls env ++ ss |}).
Proof.
  intros Hne Hss Hcb. rewrite create_pulse_group_EXEC_nonempty by exact Hne.
  unfold bind, ret.
  edestruct (loop_runs self ws
               {| pulse_group := {| pulses := []; nrep := []; name := name0;
                                    chan := 1; ctrl := "notrig" |};
                  registered_waveforms := ∅ |} env ss ids world') as (st' & ->);
    [apply initial_group_well_formed | simpl; rewrite dom_empty_L; exact Hss | exact Hcb |].
  eauto.
Qed.

(** ** Calls that fail part-way *)

(** The loop registers nothing but the waveforms it plays. *)
Lemma loop_registers_played self ws : forall st env st' env' w,
  well_formed (pulse_group st) ->
  for_each (loop_body self) ws st env = (Return st', env') ->
  is_Some (registered_waveforms st' !! w) ->
  is_Some (registered_waveforms st !! w) \/ w ∈ ws.
Proof.
  induction ws as [|w0 ws IH]; intros st env st' env' w Hwf Hrun Hw.
  - injection Hrun as <- <-. auto.
  - simpl in Hrun. unfold bind in Hrun.
    destruct (loop_body self w0 st env) as [[st1|e] env1] eqn:Hstep; [|discriminate].
    destruct (loop_body_returns _ _ _ _ _ _ Hwf Hstep) as (id & _ & Hg & Hreg).
    destruct (repeat_or_append_spec (pulse_group st) id Hwf) as (g' & Hg' & Hwf1 & _).
    rewrite Hg in Hg'. injection Hg' as <-.
    destruct (IH _ _ _ _ w Hwf1 Hrun Hw) as [Hw1|Hin]; [|right; rewrite elem_of_cons; auto].
    destruct Hreg as [(_ & Hsame & _) | (_ & Hnew & _)].
    + rewrite Hsame in Hw1. auto.
    + rewrite Hnew in Hw1. destruct (decide (w = w0)) as [->|Hne].
      * right. rewrite elem_of_cons. auto.
      * rewrite lookup_insert_ne in Hw1 by congruence. auto.
Qed.

Lemma create_pulse_group_loop_any self ws name0 env v env' :
  create_pulse_group self (execs ws) name0 env = (Return v, env') ->
  exists st',
    for_each (loop_body self) ws
      {| pulse_group := {| pulses := []; nrep := []; name := name0;
                           chan := 1; ctrl := "notrig" |};
         registered_waveforms := ∅ |} env = (Return st', env').
Proof.
  intros Hrun. rewrite create_pulse_group_EXEC in Hrun. destruct ws as [|w ws].
  - injection Hrun as <- <-. eexists. reflexivity.
  - unfold bind, ret in Hrun.
    destruct (for_each _ _ _ _) as [[st'|e] env1] eqn:Hloop; [|discriminate].
    injection Hrun as <- <-. eauto.
Qed.

(** After the block [ws] has gone through, a waveform that [ws] does not play
    is not registered yet. *)
Lemma loop_fresh_after self ws name0 env st1 env1 w :
  for_each (loop_body self) ws
    {| pulse_group := {| pulses := []; nrep := []; name := name0;
                         chan := 1; ctrl := "notrig" |};
       registered_waveforms := ∅ |} env = (Return st1, env1) ->
  w ∉ ws ->
  registered_waveforms st1 !! w = None.
Proof.
  intros Hloop Hw. apply eq_None_not_Some. intros Hsome.
  match type of Hloop with
  | for_each _ _ ?st0 _ = _ =>
      destruct (loop_registers_played self ws st0 _ _ _ w
                  (initial_group_well_formed name0) Hloop Hsome) as [Hinit|Hin]
  end; [|contradiction].
  simpl in Hinit. rewrite lookup_empty in Hinit. destruct Hinit; discriminate.
Qed.

(** A callback that raises on a new waveform ends the call there: the
    exception is passed on, and the environment is the one the preceding
    instructions left, extended by the failed invocation. *)
Lemma create_pulse_group_callback_raises self ws w ws' name0 env v env1 s c world' :
  create_pulse_group self (execs ws) name0 env = (Return v, env1) ->
  w ∉ ws ->
  create_waveform_struct self w (get_waveform_name w) = Return s ->
  register_pulse_callback self s (world env1) = (inl c, world') ->
  create_pulse_group self (execs (ws ++ w :: ws')) name0 env
  = (Raise (CallbackError c), {| world := world'; calls := calls env1 ++ [s] |}).
Proof.
  intros Hrun Hw Hs Hcb.
  destruct (create_pulse_group_loop_any _ _ _ _ _ _ Hrun) as (st1 & Hloop).
  rewrite create_pulse_group_EXEC_nonempty by (destruct ws; discriminate).
  unfold bind at 1. rewrite for_each_app. unfold bind at 1. rewrite Hloop.
  cbn [for_each]. unfold bind.
  rewrite (loop_body_callback_fails _ _ _ _ s c world'
             (loop_fresh_after _ _ _ _ _ _ _ Hloop Hw) Hs Hcb).
  reflexivity.
Qed.

(** A waveform that cannot be converted ends the call there as well, with the
    exception of the conversion, in the environment the preceding
    instructions left. *)
Lemma create_pulse_group_struct_raises self ws w ws' name0 env v env1 e :
  create_pulse_group self (execs ws) name0 env = (Return v, env1) ->
  w ∉ ws ->
  create_waveform_struct self w (get_waveform_name w) = Raise e ->
  create_pulse_group self (execs (ws ++ w :: ws')) name0 env = (Raise e, env1).
Proof.
  intros Hrun Hw Hs.
  destruct (create_pulse_group_loop_any _ _ _ _ _ _ Hrun) as (st1 & Hloop).
  rewrite create_pulse_group_EXEC_nonempty by (destruct ws; discriminate).
  unfold bind at 1. rewrite for_each_app. unfold bind at 1. rewrite Hloop.
  cbn [for_each]. unfold bind.
  rewrite (loop_body_struct_fails _ _ _ _ e (loop_fresh_after _ _ _ _ _ _ _ Hloop Hw) Hs).
  reflexivity.
Qed.

(** ** The claims on create_pulse_group *)

(** C2, as the code has it. A non-empty block of EXEC instructions compiles
    (when the callback never raises and every waveform can be sampled) to a
    pulse group whose [chan] is the integer 1 and whose [ctrl] is the string
    "notrig", whatever the name; and no call ever returns a pulse group with
    other values in these fields. *)
Theorem create_pulse_group_chan_ctrl self ws name0 env :
  callback_total self ->
  Forall (samplable self) ws ->
  ws <> [] ->
  (exists g env',
     create_pulse_group self (execs ws) name0 env = (Return (PyDict g), env')
     /\ chan g = 1 /\ ctrl g = "notrig")
  /\ (forall g env',
        create_pulse_group self (execs ws) name0 env = (Return (PyDict g), env') ->
        chan g = 1 /\ ctrl g = "notrig").
Proof.
  intros Hcb Hws Hne.
  assert (forall g env',
            create_pulse_group self (execs ws) name0 env = (Return (PyDict g), env') ->
            chan g = 1 /\ ctrl g = "notrig") as Hfields.
  { intros g env' Hrun.
    apply create_pulse_group_returns in Hrun as (_ & _ & _ & _ & _ & _ & Hchan & Hctrl & _).
    auto. }
  split; [|exact Hfields].
  destruct (create_pulse_group_total self ws name0 env Hcb Hws Hne) as (g & env' & Hrun).
  exists g, env'. split; [exact Hrun | eauto].
Qed.

(** On blocks of EXEC instructions other than the empty one, the repeat
    counts add up to the number of instructions: a block of EXEC instructions
    never raises the branching exception, and a non-empty one compiles (when
    the callback never raises and every waveform can be sampled) to a pulse
    group whose [nrep] sums to the length of the block. *)
Lemma create_pulse_group_counts_executions self block name0 env :
  forallb is_EXECInstruction block = true ->
  (forall msg, fst (create_pulse_group self block name0 env) <> Raise (Exception msg))
  /\ (block <> [] ->
      callback_total self ->
      Forall (samplable self) (omap waveform_of block) ->
      exists g env',
        create_pulse_group self block name0 env = (Return (PyDict g), env')
        /\ sum (nrep g) = Z.of_nat (length block)).
Proof.
  intros Hall. destruct (all_EXEC_inv block Hall) as [ws ->].
  split; [intros msg; apply create_pulse_group_EXEC_no_branching|].
  intros Hne Hcb Hws.
  rewrite omap_waveform_of_EXEC in Hws.
  assert (ws <> []) as Hne' by (intros ->; apply Hne; reflexivity).
  destruct (create_pulse_group_total self ws name0 env Hcb Hws Hne') as (g & env' & Hrun).
  exists g, env'. split; [exact Hrun|].
  apply create_pulse_group_returns in Hrun as (_ & _ & _ & _ & Hsum & _). exact Hsum.
Qed.

(** C4 (a defect of the code, the one of C1). The empty block consists only
    of EXEC instructions, and create_pulse_group does not raise on it; but it
    returns the empty string, so that no [nrep] is returned whose sum could
    be 0, the number of instructions of the block. *)
Theorem empty_block_returns_no_nrep self name0 env :
  forallb is_EXECInstruction (@nil (Instruction Waveform Other)) = true
  /\ (forall e, fst (create_pulse_group self (@nil (Instruction Waveform Other)) name0 env)
                <> Raise e)
  /\ ~ exists g env',
         create_pulse_group self (@nil (Instruction Waveform Other)) name0 env
         = (Return (PyDict g), env')
         /\ sum (nrep g) = Z.of_nat (length (@nil (Instruction Waveform Other))).
Proof.
  split; [reflexivity|]. split; [discriminate|].
  intros (g & env' & Hrun & _). discriminate.
Qed.

(** C8, as the code has it. The branching exception is raised on exactly the
    blocks that hold an instruction other than an EXEC instruction, and it
    is raised in the environment the call started in: the callback was not
    invoked, nothing is registered, nothing is returned. A non-empty block of
    EXEC instructions whose waveforms can be converted and whose structs the
    callback accepts compiles as a whole: the call returns a pulse group under
    the given name whose repeat counts cover every instruction, and the
    callback has been invoked on exactly the structs of the distinct
    waveforms. Between the two there are calls that fail part-way: when the
    conversion of a waveform or the callback raises on a waveform that was
    not played before, nothing is returned, and the registrations made for the
    instructions before it stay in the environment. *)
Theorem create_pulse_group_all_or_nothing self block name0 env :
  (forallb is_EXECInstruction block = false ->
   create_pulse_group self block name0 env = (Raise (Exception branching_message), env))
  /\ (forall msg env',
        create_pulse_group self block name0 env = (Raise (Exception msg), env') ->
        forallb is_EXECInstruction block = false /\ msg = branching_message /\ env' = env)
  /\ (forall ws ss ids world',
        block = execs ws ->
        ws <> [] ->
        Forall2 (fun w s => create_waveform_struct self w (get_waveform_name w) = Return s)
          (first_occurrences ∅ ws) ss ->
        run_callback self ss (world env) = Some (ids, world') ->
        exists g,
          create_pulse_group self block name0 env
          = (Return (PyDict g), {| world := world'; calls := calls env ++ ss |})
          /\ sum (nrep g) = Z.of_nat (length block)
          /\ length (pulses g) = length (nrep g)
          /\ name g = name0)
  /\ (forall ws w ws' v env1,
        block = execs (ws ++ w :: ws') ->
        create_pulse_group self (execs ws) name0 env = (Return v, env1) ->
        w ∉ ws ->
        (forall e,
           create_waveform_struct self w (get_waveform_name w) = Raise e ->
           create_pulse_group self block name0 env = (Raise e, env1))
        /\ (forall s c world',
              create_waveform_struct self w (get_waveform_name w) = Return s ->
              register_pulse_callback self s (world env1) = (inl c, world') ->
              create_pulse_group self block name0 env
              = (Raise (CallbackError c),
                 {| world := world'; calls := calls env1 ++ [s] |}))).
Proof.
  split; [apply create_pulse_group_invalid|]. split; [|split].
  - intros msg env' Hrun. destruct (forallb is_EXECInstruction block) eqn:Hall.
    + destruct (all_EXEC_inv block Hall) as [ws ->].
      pose proof (create_pulse_group_EXEC_no_branching self ws name0 env msg) as Hno.
      rewrite Hrun in Hno. contradiction.
    + rewrite (create_pulse_group_invalid _ _ _ _ Hall) in Hrun.
      injection Hrun as <- <-. auto.
  - intros ws ss ids world' -> Hne Hss Hcb.
    destruct (create_pulse_group_runs self ws name0 env ss ids world' Hne Hss Hcb)
      as (g & Hrun).
    exists g. split; [exact Hrun|].
    apply create_pulse_group_returns in Hrun
      as (_ & _ & _ & (Hlen & _) & Hsum & Hname & _). auto.
  - intros ws w ws' v env1 -> Hrun Hw. split.
    + intros e. apply (create_pulse_group_struct_raises _ _ _ _ _ _ v); assumption.
    + intros s c world'. apply (create_pulse_group_callback_raises _ _ _ _ _ _ v); assumption.
Qed.

(** ** The sample grid *)



(** ** The claims on create_waveform_struct *)

Lemma zeros_like_replicate (a : list F) : zeros_like a = replicate (length a) (of_int 0).
Proof. induction a as [|x a IH]; simpl; [reflexivity|]. f_equal. exact IH. Qed.

(** C9. create_waveform_struct is deterministic and has no side effect: when
    the waveform can be sampled, two invocations in a row with the same
    waveform and name return the same struct and leave the environment as it
    was; the struct carries the given name, the samples of the waveform on the
    grid as [wf], a [marker] of zeros of the same length, and the configured
    sample rate as [clk]. *)
Theorem create_waveform_struct_deterministic self w name0 env :
  samplable self w ->
  exists times s,
    sample_times self w = Return times
    /\ (s1 <- lift (create_waveform_struct self w name0) ;;
        s2 <- lift (create_waveform_struct self w name0) ;;
        ret (s1, s2)) env = (Return (s, s), env)
    /\ ws_name s = name0
    /\ wf (data s) = sample w times
    /\ marker (data s) = replicate (length (wf (data s))) (of_int 0)
    /\ clk (data s) = sample_rate self.
Proof.
  intros (n & Hn & Hcount).
  destruct (create_waveform_struct_returns self w name0 n Hn Hcount)
    as (times & Htimes & _ & Hs).
  eexists times, _. split; [exact Htimes|].
  unfold bind, lift, ret. rewrite Hs. simpl.
  repeat split. apply zeros_like_replicate.
Qed.

(** ** Deduplication and run-length encoding *)

(** The callback receives, in order, the structs of the distinct waveforms of
    the block, each once. *)
Lemma create_pulse_group_registers_once self ws name0 env g env' :
  create_pulse_group self (execs ws) name0 env = (Return (PyDict g), env') ->
  exists registered ss,
    calls env' = calls env ++ ss
    /\ NoDup registered
    /\ (forall w, w ∈ registered <-> w ∈ ws)
    /\ Forall2 (fun w s => create_waveform_struct self w (get_waveform_name w) = Return s)
         registered ss.
Proof.
  intros Hrun.
  destruct (create_pulse_group_returns _ _ _ _ _ _ Hrun)
    as (ws' & Heq & _ & _ & _ & _ & _ & _ & ss & Hcalls & Hall).
  apply (f_equal (omap waveform_of)) in Heq. rewrite !omap_waveform_of_EXEC in Heq.
  subst ws'.
  exists (first_occurrences ∅ ws), ss.
  split; [exact Hcalls|]. split; [apply first_occurrences_NoDup|].
  split; [|exact Hall]. intros w. rewrite first_occurrences_elem.
  split; [tauto|]. intros Hw. split; [exact Hw | apply not_elem_of_empty].
Qed.

(** The block A, B, A. *)
Lemma create_pulse_group_A_B_A self name0 env (A B : Waveform) sA sB idA idB world1 world2 :
  A <> B ->
  create_waveform_struct self A (get_waveform_name A) = Return sA ->
  create_waveform_struct self B (get_waveform_name B) = Return sB ->
  register_pulse_callback self sA (world env) = (inr idA, world1) ->
  register_pulse_callback self sB world1 = (inr idB, world2) ->
  idA <> idB ->
  create_pulse_group self (execs [A; B; A]) name0 env
  = (Return (PyDict {| pulses := [idA; idB; idA]; nrep := [1; 1; 1]; name := name0;
                       chan := 1; ctrl := "notrig" |}),
     {| world := world2; calls := calls env ++ [sA; sB] |}).
Proof.
  intros HAB HsA HsB HcbA HcbB Hids.
  rewrite create_pulse_group_EXEC. cbn [for_each]. unfold bind, ret.
  rewrite (loop_body_fresh self A _ env sA idA world1);
    [|apply lookup_empty|exact HsA|exact HcbA].
  rewrite repeat_or_append_append by (simpl; congruence). cbn [pulses nrep name chan ctrl app].
  rewrite (loop_body_fresh self B _ _ sB idB world2);
    [|simpl; rewrite lookup_insert_ne by exact HAB; apply lookup_empty|exact HsB|exact HcbB].
  cbn [pulse_group registered_waveforms world calls].
  rewrite repeat_or_append_append by (simpl; congruence). cbn [pulses nrep name chan ctrl app].
  rewrite (loop_body_known self A _ _ idA);
    [|simpl; rewrite lookup_insert_ne by congruence; apply lookup_insert_eq].
  cbn [pulse_group registered_waveforms].
  rewrite repeat_or_append_append by (simpl; congruence). cbn [pulses nrep name chan ctrl app].
  rewrite <- app_assoc. reflexivity.
Qed.

(** The block A, A, B. *)
Lemma create_pulse_group_A_A_B self name0 env (A B : Waveform) sA sB idA idB world1 world2 :
  A <> B ->
  create_waveform_struct self A (get_waveform_name A) = Return sA ->
  create_waveform_struct self B (get_waveform_name B) = Return sB ->
  register_pulse_callback self sA (world env) = (inr idA, world1) ->
  register_pulse_callback self sB world1 = (inr idB, world2) ->
  idA <> idB ->
  create_pulse_group self (execs [A; A; B]) name0 env
  = (Return (PyDict {| pulses := [idA; idB]; nrep := [2; 1]; name := name0;
                       chan := 1; ctrl := "notrig" |}),
     {| world := world2; calls := calls env ++ [sA; sB] |}).
Proof.
  intros HAB HsA HsB HcbA HcbB Hids.
  rewrite create_pulse_group_EXEC. cbn [for_each]. unfold bind, ret.
  rewrite (loop_body_fresh self A _ env sA idA world1);
    [|apply lookup_empty|exact HsA|exact HcbA].
  rewrite repeat_or_append_append by (simpl; congruence). cbn [pulses nrep name chan ctrl app].
  rewrite (loop_body_known self A _ _ idA); [|simpl; apply lookup_insert_eq].
  cbn [pulse_group registered_waveforms].
  rewrite (repeat_or_append_repeat _ idA [] [] 1) by reflexivity.
  cbn [pulses nrep name chan ctrl app Z.add Pos.add].
  rewrite (loop_body_fresh self B _ _ sB idB world2);
    [|simpl; rewrite lookup_insert_ne by exact HAB; apply lookup_empty|exact HsB|exact HcbB].
  cbn [pulse_group registered_waveforms world calls].
  rewrite repeat_or_append_append by (simpl; congruence). cbn [pulses nrep name chan ctrl app].
  rewrite <- app_assoc. reflexivity.
Qed.

(** Playing the last waveform once more adds no entry: it increments the
    last repeat count, and the callback is not invoked again. *)
Lemma create_pulse_group_repeat_last self name0 env ws w g env' :
  create_pulse_group self (execs (ws ++ [w])) name0 env = (Return (PyDict g), env') ->
  exists ns n,
    nrep g = ns ++ [n]
    /\ create_pulse_group self (execs (ws ++ [w; w])) name0 env
       = (Return (PyDict {| pulses := pulses g; nrep := ns ++ [n + 1]; name := name g;
                            chan := chan g; ctrl := ctrl g |}), env').
Proof.
  intros Hrun.
  rewrite create_pulse_group_EXEC_nonempty in Hrun by (destruct ws; discriminate).
  unfold bind, ret in Hrun.
  destruct (for_each _ _ _ _) as [[st1|e] env1] eqn:Hloop; [|discriminate].
  injection Hrun as <- <-.
  pose proof Hloop as Hpost.
  apply loop_returns in Hpost as (Hwf & _ & _ & _ & _ & _ & Hlast);
    [|apply initial_group_well_formed].
  destruct (Hlast w (last_snoc _ _)) as (id & Hid & Hpulse).
  apply last_Some in Hpulse as [ps Hps].
  destruct (last (nrep (pulse_group st1))) as [n|] eqn:Hn.
  2:{ apply last_None in Hn. destruct Hwf as [Hlen _].
      rewrite Hps, Hn, length_app in Hlen. simpl in Hlen. lia. }
  apply last_Some in Hn as [ns Hn]. exists ns, n. split; [exact Hn|].
  rewrite create_pulse_group_EXEC_nonempty by (destruct ws; discriminate).
  replace (ws ++ [w; w]) with ((ws ++ [w]) ++ [w]) by (rewrite <- app_assoc; reflexivity).
  unfold bind at 1. rewrite for_each_app. unfold bind at 1. rewrite Hloop.
  cbn [for_each]. unfold bind, ret.
  rewrite (loop_body_known self w st1 env1 id Hid).
  rewrite (repeat_or_append_repeat _ id ps ns n Hps Hn). reflexivity.
Qed.

(** C5, as the code has it. Within one call of create_pulse_group the
    callback is invoked exactly once per distinct waveform, however often and
    wherever the waveform appears in the block: after every call that returns
    a pulse group, the structs the callback received are, in order, those of
    the distinct waveforms of the block; and a non-empty block returns a
    pulse group as soon as these structs can be built and the callback
    accepts them one after the other. A block A, B, A with A and B distinct
    compiles to pulses = [idA, idB, idA] and nrep = [1, 1, 1] when the
    callback registers A and B under different ids idA and idB; the callback
    has then been invoked twice, on A and then on B. *)
Theorem callback_invoked_once_per_waveform self name0 env :
  (forall ws g env',
     create_pulse_group self (execs ws) name0 env = (Return (PyDict g), env') ->
     exists registered ss,
       calls env' = calls env ++ ss
       /\ NoDup registered
       /\ (forall w, w ∈ registered <-> w ∈ ws)
       /\ Forall2 (fun w s => create_waveform_struct self w (get_waveform_name w) = Return s)
            registered ss)
  /\ (forall ws ss ids world',
        ws <> [] ->
        Forall2 (fun w s => create_waveform_struct self w (get_waveform_name w) = Return s)
          (first_occurrences ∅ ws) ss ->
        run_callback self ss (world env) = Some (ids, world') ->
        exists g,
          create_pulse_group self (execs ws) name0 env
          = (Return (PyDict g), {| world := world'; calls := calls env ++ ss |}))
  /\ (forall (A B : Waveform) sA sB idA idB world1 world2,
        A <> B ->
        create_waveform_struct self A (get_waveform_name A) = Return sA ->
        create_waveform_struct self B (get_waveform_name B) = Return sB ->
        register_pulse_callback self sA (world env) = (inr idA, world1) ->
        register_pulse_callback self sB world1 = (inr idB, world2) ->
        idA <> idB ->
        create_pulse_group self (execs [A; B; A]) name0 env
        = (Return (PyDict {| pulses := [idA; idB; idA]; nrep := [1; 1; 1]; name := name0;
                             chan := 1; ctrl := "notrig" |}),
           {| world := world2; calls := calls env ++ [sA; sB] |})).
Proof.
  split; [|split].
  - intros ws g env'. apply create_pulse_group_registers_once.
  - intros ws ss ids world'. apply create_pulse_group_runs.
  - intros A B sA sB idA idB world1 world2. apply create_pulse_group_A_B_A.
Qed.

(** C6, as the code has it. Every pulse group returned by create_pulse_group
    has as many pulses as repeat counts, and no two consecutive pulses are
    equal: playing the last waveform once more adds no entry but increments
    the last repeat count. A block A, A, B with A and B distinct compiles to
    pulses = [idA, idB] and nrep = [2, 1] when the callback registers A and B
    under different ids idA and idB. *)
Theorem pulse_group_run_length_encoded self name0 env :
  (forall block g env',
     create_pulse_group self block name0 env = (Return (PyDict g), env') ->
     length (pulses g) = length (nrep g)
     /\ forall (i : nat) p q,
          pulses g !! i = Some p -> pulses g !! S i = Some q -> p <> q)
  /\ (forall ws w g env',
        create_pulse_group self (execs (ws ++ [w])) name0 env = (Return (PyDict g), env') ->
        exists ns n,
          nrep g = ns ++ [n]
          /\ create_pulse_group self (execs (ws ++ [w; w])) name0 env
             = (Return (PyDict {| pulses := pulses g; nrep := ns ++ [n + 1];
                                  name := name g; chan := chan g; ctrl := ctrl g |}),
                env'))
  /\ (forall (A B : Waveform) sA sB idA idB world1 world2,
        A <> B ->
        create_waveform_struct self A (get_waveform_name A) = Return sA ->
        create_waveform_struct self B (get_waveform_name B) = Return sB ->
        register_pulse_callback self sA (world env) = (inr idA, world1) ->
        register_pulse_callback self sB world1 = (inr idB, world2) ->
        idA <> idB ->
        create_pulse_group self (execs [A; A; B]) name0 env
        = (Return (PyDict {| pulses := [idA; idB]; nrep := [2; 1]; name := name0;
                             chan := 1; ctrl := "notrig" |}),
           {| world := world2; calls := calls env ++ [sA; sB] |})).
Proof.
  split; [|split].
  - intros block g env' Hrun.
    apply create_pulse_group_returns in Hrun as (_ & _ & _ & (Hlen & Hadj & _) & _).
    split; [exact Hlen | exact Hadj].
  - intros ws w g env'. apply create_pulse_group_repeat_last.
  - intros A B sA sB idA idB world1 world2. apply create_pulse_group_A_A_B.
Qed.

End InterfaceFacts.

(** * The sample grid in double precision *)

Section Binary64.
Context `{WaveformClass spec_float Waveform} {World E : Type}.
Implicit Types (self : PulseControlInterface spec_float World E) (w : Waveform).




End Binary64.

(** * The claims on the concrete interface *)

Lemma demo_callback_total : callback_total Demo.pci.
Proof. intros s next. exists next, (next + 1). reflexivity. Defined.

Lemma demo_samplable {World} (self : PulseControlInterface spec_float World unit)
    (ws : list nat) :
  forallb (fun w => match sample_count self w with
                    | Return n => 0 <=? n
                    | Raise _ => false
                    end) ws = true ->
  Forall (samplable self) ws.
Proof.
  induction ws as [|w ws IH]; simpl; intros Hall; [constructor|].
  apply andb_prop in Hall as [Hw Hall]. constructor; [|apply IH; exact Hall].
  destruct (sample_count self w) as [n|e] eqn:Hn; [|discriminate].
  exists n. split; [exact Hn | apply Z.leb_le; exact Hw].
Defined.

(** The product is rounded before the floor is taken: 29 * 0.01 * 100 is
    28.999999999999996 in double precision, and a waveform of duration 29
    gets 29 samples at 100 Hz with time scaling 0.01, where the exact product
    29 gives 30. *)
Example sample_count_rounds :
  sample_count (E:=unit) Demo.pci_centi 29%nat = Return 29
  /\ sample_count (E:=unit) Ideal.pci_centi 29%N = Return 30.
Proof. split; vm_compute; reflexivity. Qed.

(** [math.floor] raises on a product that is not a number. *)
Example sample_count_overflows :
  sample_count (E:=unit)
    {| register_pulse_callback := Demo.counting;
       sample_rate := S754_infinity false; time_scaling := Demo.milli |} 1%nat
  = Raise OverflowError
  /\ sample_count (E:=unit)
       {| register_pulse_callback := Demo.counting;
          sample_rate := S754_nan; time_scaling := Demo.milli |} 1%nat
     = Raise ValueError.
Proof. split; vm_compute; reflexivity. Qed.

(** ** C2 *)

Lemma ctrl_is_not_no_external_trigger :
  exists g,
    fst (create_pulse_group Demo.pci (Demo.block [1]%nat) "g" Demo.start) = Return (PyDict g)
    /\ ctrl g <> "no external trigger".
Proof. eexists. split; [vm_compute; reflexivity | simpl; discriminate]. Qed.

Lemma create_pulse_group_chan_ctrl_witness :
  exists g env',
    create_pulse_group Demo.pci (Demo.block [1; 300]%nat) "g" Demo.start
    = (Return (PyDict g), env')
    /\ chan g = 1 /\ ctrl g = "notrig".
Proof.
  apply (create_pulse_group_chan_ctrl Demo.pci [1; 300]%nat "g" Demo.start).
  - exact demo_callback_total.
  - apply demo_samplable. vm_compute. reflexivity.
  - discriminate.
Defined.

(** ** C3 *)

Lemma create_pulse_group_rejects_branching_witness :
  create_pulse_group Demo.pci
    [EXECInstruction 1%nat; OtherInstruction Demo.GOTOInstruction; EXECInstruction 2%nat]
    "g" Demo.start
  = (Raise (Exception branching_message), Demo.start).
Proof.
  apply (create_pulse_group_rejects_branching Demo.pci
           [EXECInstruction 1%nat] [EXECInstruction 2%nat]
           (OtherInstruction Demo.GOTOInstruction) "g" Demo.start).
  reflexivity.
Defined.

(** ** C4 *)

Lemma create_pulse_group_counts_executions_witness :
  exists g env',
    create_pulse_group Demo.pci (Demo.block [1; 1; 300]%nat) "g" Demo.start
    = (Return (PyDict g), env')
    /\ sum (nrep g) = 3.
Proof.
  apply (create_pulse_group_counts_executions Demo.pci (Demo.block [1; 1; 300]%nat)
           "g" Demo.start eq_refl).
  - discriminate.
  - exact demo_callback_total.
  - apply demo_samplable. vm_compute. reflexivity.
Defined.

(** ** C5 *)

(** With the constant callback A and B get the same id: the callback is
    invoked twice, on A and on B, as the claim has it, but the block A, B, A
    collapses into the single entry of this id, repeated three times. *)
Lemma equal_ids_merge_A_B_A :
  exists sA sB idA idB g env',
    create_waveform_struct Demo.pci_constant 1%nat (get_waveform_name 1%nat) = Return sA
    /\ create_waveform_struct Demo.pci_constant 2%nat (get_waveform_name 2%nat) = Return sB
    /\ register_pulse_callback Demo.pci_constant sA tt = (inr idA, tt)
    /\ register_pulse_callback Demo.pci_constant sB tt = (inr idB, tt)
    /\ create_pulse_group Demo.pci_constant (Demo.block [1; 2; 1]%nat) "g"
         {| world := tt; calls := [] |}
       = (Return (PyDict g), env')
    /\ calls env' = [sA; sB]
    /\ pulses g = [7] /\ nrep g = [3]
    /\ pulses g <> [idA; idB; idA] /\ nrep g <> [1; 1; 1].
Proof.
  eexists _, _, 7, 7, _, _.
  split; [vm_compute; reflexivity|]. split; [vm_compute; reflexivity|].
  split; [reflexivity|]. split; [reflexivity|].
  split; [vm_compute; reflexivity|]. split; [reflexivity|].
  split; [reflexivity|]. split; [reflexivity|]. split; discriminate.
Qed.

Lemma callback_invoked_once_per_waveform_witness :
  (exists registered ss,
     calls (snd (Demo.run [1; 2; 1; 2; 2]%nat)) = calls Demo.start ++ ss
     /\ NoDup registered
     /\ (forall w, w ∈ registered <-> w ∈ [1; 2; 1; 2; 2]%nat)
     /\ Forall2 (fun w s => create_waveform_struct Demo.pci w (get_waveform_name w) = Return s)
          registered ss)
  /\ fst (create_pulse_group Demo.pci (Demo.block [1; 2; 1]%nat) "g" Demo.start)
     = Return (PyDict {| pulses := [0; 1; 0]; nrep := [1; 1; 1]; name := "g";
                         chan := 1; ctrl := "notrig" |}).
Proof.
  split.
  - apply (proj1 (callback_invoked_once_per_waveform (Other:=Demo.Branching)
                    Demo.pci "g" Demo.start)
             [1; 2; 1; 2; 2]%nat
             {| pulses := [0; 1; 0; 1]; nrep := [1; 1; 1; 2]; name := "g";
                chan := 1; ctrl := "notrig" |}).
    vm_compute. reflexivity.
  - unfold Demo.block.
    erewrite (proj2 (proj2 (callback_invoked_once_per_waveform Demo.pci "g" Demo.start))
                1%nat 2%nat _ _ 0 1 1 2);
      [reflexivity | lia | vm_compute; reflexivity | vm_compute; reflexivity
       | reflexivity | reflexivity | lia].
Defined.

(** ** C6 *)

(** With the constant callback the block A, A, B collapses as well. *)
Lemma equal_ids_merge_A_A_B :
  exists sA sB idA idB g env',
    create_waveform_struct Demo.pci_constant 1%nat (get_waveform_name 1%nat) = Return sA
    /\ create_waveform_struct Demo.pci_constant 2%nat (get_waveform_name 2%nat) = Return sB
    /\ register_pulse_callback Demo.pci_constant sA tt = (inr idA, tt)
    /\ register_pulse_callback Demo.pci_constant sB tt = (inr idB, tt)
    /\ create_pulse_group Demo.pci_constant (Demo.block [1; 1; 2]%nat) "g"
         {| world := tt; calls := [] |}
       = (Return (PyDict g), env')
    /\ pulses g = [7] /\ nrep g = [3]
    /\ pulses g <> [idA; idB] /\ nrep g <> [2; 1].
Proof.
  eexists _, _, 7, 7, _, _.
  split; [vm_compute; reflexivity|]. split; [vm_compute; reflexivity|].
  split; [reflexivity|]. split; [reflexivity|].
  split; [vm_compute; reflexivity|].
  split; [reflexivity|]. split; [reflexivity|]. split; discriminate.
Qed.

Lemma pulse_group_run_length_encoded_witness :
  fst (create_pulse_group Demo.pci (Demo.block [1; 1; 2]%nat) "g" Demo.start)
  = Return (PyDict {| pulses := [0; 1]; nrep := [2; 1]; name := "g";
                      chan := 1; ctrl := "notrig" |}).
Proof.
  unfold Demo.block.
  erewrite (proj2 (proj2 (pulse_group_run_length_encoded Demo.pci "g" Demo.start))
              1%nat 2%nat _ _ 0 1 1 2);
    [reflexivity | lia | vm_compute; reflexivity | vm_compute; reflexivity
     | reflexivity | reflexivity | lia].
Defined.

(** ** C7 *)



(** ** C8 *)

(** A backend that refuses the third of four pulses: the block has no
    branching, nothing is returned, and the two registrations made before
    the refusal stay. *)
Lemma callback_failure_is_partial :
  forallb is_EXECInstruction (Demo.block [1; 3; 2; 1]%nat) = true
  /\ exists env',
       create_pulse_group Demo.pci_refusing (Demo.block [1; 3; 2; 1]%nat) "g" Demo.start
       = (Raise (CallbackError tt), env')
       /\ env' <> Demo.start
       /\ world env' = 2
       /\ ws_name <$> calls env' = ["wf_1"; "wf_3"; "wf_2"].
Proof.
  split; [reflexivity|]. eexists. split; [vm_compute; reflexivity|].
  split; [discriminate|]. split; reflexivity.
Qed.

Lemma create_pulse_group_all_or_nothing_witness :
  create_pulse_group Demo.pci
    [EXECInstruction 1%nat; EXECInstruction 2%nat; OtherInstruction Demo.CJMPInstruction]
    "g" Demo.start
  = (Raise (Exception branching_message), Demo.start)
  /\ exists g,
       create_pulse_group Demo.pci (Demo.block [1; 1; 300]%nat) "g" Demo.start
       = (Return (PyDict g), {| world := 2; calls := calls (snd (Demo.run [1; 300]%nat)) |})
       /\ sum (nrep g) = 3.
Proof.
  split.
  - apply (proj1 (create_pulse_group_all_or_nothing Demo.pci
                    [EXECInstruction 1%nat; EXECInstruction 2%nat;
                     OtherInstruction Demo.CJMPInstruction] "g" Demo.start)).
    reflexivity.
  - destruct (proj1 (proj2 (proj2 (create_pulse_group_all_or_nothing Demo.pci
                      (Demo.block [1; 1; 300]%nat) "g" Demo.start)))
                [1; 1; 300]%nat (calls (snd (Demo.run [1; 300]%nat))) [0; 1] 2)
      as (g & Hrun & Hsum & _).
    + reflexivity.
    + discriminate.
    + let l := eval vm_compute in (first_occurrences ∅ [1; 1; 300]%nat) in
      replace (first_occurrences ∅ [1; 1; 300]%nat) with l by (vm_compute; reflexivity).
      let l := eval vm_compute in (calls (snd (Demo.run [1; 300]%nat))) in
      replace (calls (snd (Demo.run [1; 300]%nat))) with l by (vm_compute; reflexivity).
      constructor; [vm_compute; reflexivity|].
      constructor; [vm_compute; reflexivity | constructor].
    + vm_compute. reflexivity.
    + exists g. split; [exact Hrun | exact Hsum].
Defined.

(** ** C9 *)

Lemma create_waveform_struct_deterministic_witness :
  exists times s,
    sample_times Demo.pci 300%nat = Return times
    /\ (s1 <- lift (create_waveform_struct Demo.pci 300%nat "wf") ;;
        s2 <- lift (create_waveform_struct Demo.pci 300%nat "wf") ;;
        ret (s1, s2)) Demo.start = (Return (s, s), Demo.start)
    /\ ws_name s = "wf"
    /\ wf (data s) = sample 300%nat times
    /\ marker (data s) = replicate (length (wf (data s))) (of_int 0)
    /\ clk (data s) = sample_rate Demo.pci.
Proof.
  apply (create_waveform_struct_deterministic Demo.pci 300%nat "wf" Demo.start).
  exists 4. split; [vm_compute; reflexivity | lia].
Defined.

(** * Further properties of the interface *)

Section InterfaceMore.
Context `{PyFloat F} `{WaveformClass F Waveform} {Other World E : Type}.
Implicit Types (self : PulseControlInterface F World E).
Implicit Types (block : list (Instruction Waveform Other)).
Implicit Types (ws : list Waveform) (w : Waveform) (env : Env F World).
Implicit Types (g : PulseGroup) (st : Locals Waveform).

Local Abbreviation execs ws := (EXECInstruction (Other:=Other) <$> ws).

(** ** Decoding the run-length encoding *)

Lemma expand_snoc (ps ns : list Z) (p n : Z) :
  length ps = length ns ->
  expand (ps ++ [p]) (ns ++ [n]) = expand ps ns ++ replicate (Z.to_nat n) p.
Proof.
  intros Hlen. unfold expand. rewrite zip_with_app by exact Hlen.
  rewrite concat_app. simpl. rewrite app_nil_r. reflexivity.
Qed.

(** A run-length step stands for one more execution of [id]. *)
Lemma repeat_or_append_expand g id g' :
  well_formed g ->
  repeat_or_append (E:=E) g id = Return g' ->
  expand (pulses g') (nrep g') = expand (pulses g) (nrep g) ++ [id].
Proof.
  intros (Hlen & _ & Hpos) Hstep.
  destruct (decide (last (pulses g) = Some id)) as [Hlast|Hlast].
  - apply last_Some in Hlast as [ps Hps].
    destruct (last (nrep g)) as [n|] eqn:Hn.
    2:{ apply last_None in Hn. rewrite Hps, Hn, length_app in Hlen. simpl in Hlen. lia. }
    apply last_Some in Hn as [ns Hn].
    rewrite (repeat_or_append_repeat g id ps ns n Hps Hn) in Hstep.
    injection Hstep as <-. simpl. rewrite Hps, Hn in *.
    assert (length ps = length ns) as Hlen'.
    { rewrite !length_app in Hlen. simpl in Hlen. lia. }
    rewrite !expand_snoc by exact Hlen'.
    apply Forall_app in Hpos as [_ Hn1]. apply Forall_inv in Hn1. cbv beta in Hn1.
    replace (Z.to_nat (n + 1)) with (S (Z.to_nat n)) by lia.
    rewrite replicate_S_end, app_assoc. reflexivity.
  - rewrite (repeat_or_append_append g id Hlast) in Hstep.
    injection Hstep as <-. simpl. rewrite expand_snoc by exact Hlen. reflexivity.
Qed.

(** ** The registry built by the loop *)

(** A loop that returns has only added entries to the registry; the group
    stands for the executions it stood for followed by the registered ids of
    the waveforms played; and the ids of the waveforms registered in this
    loop are, in order, those the callback returned. *)
Lemma loop_registry self ws : forall st env st' env',
  well_formed (pulse_group st) ->
  for_each (loop_body self) ws st env = (Return st', env') ->
  registered_waveforms st ⊆ registered_waveforms st'
  /\ (exists ids,
        expand (pulses (pulse_group st')) (nrep (pulse_group st'))
        = expand (pulses (pulse_group st)) (nrep (pulse_group st)) ++ ids
        /\ Forall2 (fun w id => registered_waveforms st' !! w = Some id) ws ids)
  /\ (exists ss ids,
        calls env' = calls env ++ ss
        /\ run_callback self ss (world env) = Some (ids, world env')
        /\ Forall2 (fun w id => registered_waveforms st' !! w = Some id)
             (first_occurrences (dom (registered_waveforms st)) ws) ids).
Proof.
  induction ws as [|w ws IH]; intros st env st' env' Hwf Hrun.
  - injection Hrun as <- <-. split; [reflexivity|]. split.
    + exists []. rewrite app_nil_r. split; [reflexivity | constructor].
    + exists [], []. rewrite app_nil_r. simpl. repeat split. constructor.
  - simpl in Hrun. unfold bind in Hrun.
    destruct (loop_body self w st env) as [[st1|e] env1] eqn:Hstep; [|discriminate].
    destruct (loop_body_returns _ _ _ _ _ _ Hwf Hstep) as (id & Hid & Hg & Hreg).
    destruct (repeat_or_append_spec (E:=E) (pulse_group st) id Hwf) as (g' & Hg' & Hwf1 & _).
    rewrite Hg in Hg'. injection Hg' as <-.
    pose proof (repeat_or_append_expand _ _ _ Hwf Hg) as Hexp1.
    destruct (IH _ _ _ _ Hwf1 Hrun)
      as (Hsub & (ids & Hexp & Hids) & (ss & ids1 & Hcalls & Hcb & Hfirst)).
    assert (registered_waveforms st ⊆ registered_waveforms st1) as Hsub1.
    { destruct Hreg as [(_ & -> & _) | (Hnone & -> & _)];
        [reflexivity | apply insert_subseteq; exact Hnone]. }
    split; [etrans; eassumption|]. split.
    + exists (id :: ids). split.
      * rewrite Hexp, Hexp1, <- app_assoc. reflexivity.
      * constructor; [|exact Hids]. eapply lookup_weaken; eassumption.
    + simpl. destruct Hreg as [(Hw & Hsame & ->) | (Hw & Hnew & s & world' & Hs & Hcall & ->)].
      * rewrite Hsame in Hfirst. apply elem_of_dom_2 in Hw.
        rewrite decide_True by exact Hw. eauto.
      * rewrite Hnew, dom_insert_L in Hfirst. apply not_elem_of_dom_2 in Hw.
        rewrite decide_False by exact Hw. simpl in Hcalls, Hcb.
        exists (s :: ss), (id :: ids1). split; [rewrite Hcalls, <- app_assoc; reflexivity|].
        split; [simpl; rewrite Hcall, Hcb; reflexivity|].
        constructor; [|exact Hfirst]. eapply lookup_weaken; eassumption.
Qed.

(** ** What a returned pulse group stands for *)

Lemma create_pulse_group_loop self ws name0 env g env' :
  create_pulse_group self (execs ws) name0 env = (Return (PyDict g), env') ->
  exists st',
    for_each (loop_body self) ws
      {| pulse_group := {| pulses := []; nrep := []; name := name0;
                           chan := 1; ctrl := "notrig" |};
         registered_waveforms := ∅ |} env = (Return st', env')
    /\ pulse_group st' = g.
Proof.
  intros Hrun. rewrite create_pulse_group_EXEC in Hrun.
  destruct ws as [|w ws]; [discriminate|]. unfold bind, ret in Hrun.
  destruct (for_each _ _ _ _) as [[st'|e] env1] eqn:Hloop; [|discriminate].
  injection Hrun as <- <-. eauto.
Qed.

Lemma expand_elem (ps ns : list Z) (p : Z) :
  length ps = length ns -> Forall (fun n => 1 <= n) ns ->
  p ∈ expand ps ns <-> p ∈ ps.
Proof.
  revert ns. induction ps as [|p0 ps IH]; intros [|n0 ns] Hlen Hpos; try discriminate.
  - reflexivity.
  - apply Forall_cons_1 in Hpos as [Hn0 Hpos]. injection Hlen as Hlen.
    unfold expand. simpl. fold (expand ps ns).
    rewrite elem_of_app, elem_of_replicate, elem_of_cons, (IH ns Hlen Hpos).
    split; [tauto|]. intros [->|Hp]; [left; split; [reflexivity | lia] | tauto].
Qed.

Lemma Forall2_registered_elem (reg : gmap Waveform Z) ws (ids : list Z) (p : Z) :
  Forall2 (fun w id => reg !! w = Some id) ws ids ->
  p ∈ ids <-> exists w, w ∈ ws /\ reg !! w = Some p.
Proof.
  induction 1 as [|w id ws ids Hw _ IH].
  - split; [intros Hp; apply elem_of_nil in Hp; contradiction|].
    intros (w & Hw & _). apply elem_of_nil in Hw. contradiction.
  - rewrite elem_of_cons, IH. split.
    + intros [->|(w' & Hw' & Hp)]; [exists w | exists w']; rewrite elem_of_cons; auto.
    + intros (w' & Hw' & Hp). apply elem_of_cons in Hw' as [->|Hw']; [|eauto].
      left. congruence.
Qed.

(** X1. Decoding a returned pulse group gives back the block: expanding each
    pulse by its repeat count yields one id per instruction, in order, and
    value-equal waveforms always stand behind the same id. *)
Theorem create_pulse_group_decodes self block name0 env g env' :
  create_pulse_group self block name0 env = (Return (PyDict g), env') ->
  exists ws (reg : gmap Waveform Z),
    block = execs ws
    /\ Forall2 (fun w id => reg !! w = Some id) ws (expand (pulses g) (nrep g)).
Proof.
  intros Hrun.
  destruct (create_pulse_group_returns _ _ _ _ _ _ Hrun) as (ws & -> & _).
  destruct (create_pulse_group_loop _ _ _ _ _ _ Hrun) as (st' & Hloop & <-).
  apply loop_registry in Hloop as (_ & (ids & Hexp & Hids) & _);
    [|apply initial_group_well_formed].
  exists ws, (registered_waveforms st'). split; [reflexivity|].
  simpl in Hexp. rewrite Hexp. exact Hids.
Qed.

(** X2. The pulses of a returned group are exactly the ids the callback
    returned during the call, and the backend is left in the state reached by
    invoking the callback on the structs of the distinct waveforms, in the
    order of their first occurrence. *)
Theorem create_pulse_group_backend self ws name0 env g env' :
  create_pulse_group self (execs ws) name0 env = (Return (PyDict g), env') ->
  exists ss ids,
    calls env' = calls env ++ ss
    /\ Forall2 (fun w s => create_waveform_struct self w (get_waveform_name w) = Return s)
         (first_occurrences ∅ ws) ss
    /\ run_callback self ss (world env) = Some (ids, world env')
    /\ forall p, p ∈ pulses g <-> p ∈ ids.
Proof.
  intros Hrun.
  destruct (create_pulse_group_returns _ _ _ _ _ _ Hrun)
    as (ws' & Heq & _ & (Hlen & _ & Hpos) & _ & _ & _ & _ & ss & Hcalls & Hss).
  apply (f_equal (omap waveform_of)) in Heq. rewrite !omap_waveform_of_EXEC in Heq.
  subst ws'.
  destruct (create_pulse_group_loop _ _ _ _ _ _ Hrun) as (st' & Hloop & <-).
  apply loop_registry in Hloop
    as (_ & (ids & Hexp & Hids) & (ss' & ids1 & Hcalls' & Hcb & Hfirst));
    [|apply initial_group_well_formed].
  simpl in Hexp, Hcb, Hfirst. rewrite dom_empty_L in Hfirst.
  rewrite Hcalls in Hcalls'. apply app_inv_head in Hcalls'. subst ss'.
  exists ss, ids1. split; [exact Hcalls|]. split; [exact Hss|]. split; [exact Hcb|].
  intros p. rewrite <- (expand_elem _ _ p Hlen Hpos), Hexp.
  rewrite (Forall2_registered_elem _ _ _ p Hids), (Forall2_registered_elem _ _ _ p Hfirst).
  split; intros (w & Hw & Hp); exists w; (split; [|exact Hp]).
  - apply first_occurrences_elem. split; [exact Hw | apply not_elem_of_empty].
  - apply first_occurrences_elem in Hw as [Hw _]. exact Hw.
Qed.

(** X3. Every repeat count of a returned pulse group is at least 1: no entry
    stands for zero executions. *)
Theorem create_pulse_group_nrep_positive self block name0 env g env' :
  create_pulse_group self block name0 env = (Return (PyDict g), env') ->
  Forall (fun n => 1 <= n) (nrep g).
Proof.
  intros Hrun.
  apply create_pulse_group_returns in Hrun as (_ & _ & _ & (_ & _ & Hpos) & _).
  exact Hpos.
Qed.

(** ** Failures *)

(** How one iteration fails: the waveform cannot be converted, and nothing
    has happened, or the callback raised on its struct. *)
Lemma loop_body_raises_cause self w st env e env' :
  well_formed (pulse_group st) ->
  loop_body self w st env = (Raise e, env') ->
  (create_waveform_struct self w (get_waveform_name w) = Raise e /\ env' = env)
  \/ (exists c s,
        e = CallbackError c
        /\ create_waveform_struct self w (get_waveform_name w) = Return s
        /\ register_pulse_callback self s (world env) = (inl c, world env')
        /\ calls env' = calls env ++ [s]).
Proof.
  intros Hwf Hrun.
  destruct (registered_waveforms st !! w) as [id|] eqn:Hw.
  - rewrite (loop_body_known _ _ _ _ id Hw) in Hrun.
    destruct (repeat_or_append_spec (E:=E) (pulse_group st) id Hwf) as (g' & Hg' & _).
    rewrite Hg' in Hrun. discriminate.
  - destruct (create_waveform_struct self w (get_waveform_name w)) as [s|e0] eqn:Hs.
    2:{ rewrite (loop_body_struct_fails _ _ _ _ e0 Hw Hs) in Hrun. injection Hrun as <- <-.
        left. auto. }
    destruct (register_pulse_callback self s (world env)) as [[c|id] world'] eqn:Hcb.
    { rewrite (loop_body_callback_fails _ _ _ _ s c world' Hw Hs Hcb) in Hrun.
      injection Hrun as <- <-. right. exists c, s. auto. }
    rewrite (loop_body_fresh _ _ _ _ s id world' Hw Hs Hcb) in Hrun.
    destruct (repeat_or_append_spec (E:=E) (pulse_group st) id Hwf) as (g' & Hg' & _).
    rewrite Hg' in Hrun. discriminate.
Qed.

Lemma loop_raises_cause self ws : forall st env e env',
  well_formed (pulse_group st) ->
  for_each (loop_body self) ws st env = (Raise e, env') ->
  (exists w, w ∈ ws /\ create_waveform_struct self w (get_waveform_name w) = Raise e)
  \/ (exists c s world0,
        e = CallbackError c
        /\ register_pulse_callback self s world0 = (inl c, world env')
        /\ last (calls env') = Some s).
Proof.
  induction ws as [|w ws IH]; intros st env e env' Hwf Hrun; [discriminate|].
  simpl in Hrun. unfold bind in Hrun.
  destruct (loop_body self w st env) as [[st1|e1] env1] eqn:Hstep.
  - destruct (loop_body_returns _ _ _ _ _ _ Hwf Hstep) as (id & _ & Hg & _).
    destruct (repeat_or_append_spec (E:=E) (pulse_group st) id Hwf) as (g' & Hg' & Hwf1 & _).
    rewrite Hg in Hg'. injection Hg' as <-.
    destruct (IH _ _ _ _ Hwf1 Hrun) as [(w' & Hw' & Hfail) | Hcb]; [|right; exact Hcb].
    left. exists w'. rewrite elem_of_cons. auto.
  - injection Hrun as <- <-.
    destruct (loop_body_raises_cause _ _ _ _ _ _ Hwf Hstep)
      as [(Hfail & _) | (c & s & -> & _ & Hcb & Hcalls)].
    + left. exists w. rewrite elem_of_cons. auto.
    + right. exists c, s, (world env). rewrite Hcalls, last_snoc. auto.
Qed.

Lemma forallb_false_elem {A} (f : A -> bool) (l : list A) :
  forallb f l = false -> exists x, x ∈ l /\ f x = false.
Proof.
  induction l as [|x l IH]; simpl; [discriminate|]. intros Hall.
  destruct (f x) eqn:Hx.
  - destruct (IH Hall) as (y & Hy & Hfy). exists y. rewrite elem_of_cons. auto.
  - exists x. rewrite elem_of_cons. auto.
Qed.

(** X4. For waveforms whose own methods return, whatever create_pulse_group
    raises is one of: the branching exception, for a block with an
    instruction that is not an EXEC instruction, in the environment the call
    started in; the OverflowError or ValueError that create_waveform_struct
    raises on a waveform of the block (math.floor on a product that is
    infinite or not a number, numpy.linspace on a negative count); or an
    exception of the callback, passed on after the failing invocation was the
    last one made. The lookups of the method itself, in the registry and at
    the end of the pulse group, cannot fail: it never raises KeyError,
    IndexError or AttributeError. *)
Theorem create_pulse_group_raises_cause self block name0 env e env' :
  create_pulse_group self block name0 env = (Raise e, env') ->
  ((e = Exception branching_message /\ env' = env
    /\ exists x, x ∈ block /\ is_EXECInstruction x = false)
   \/ ((e = OverflowError \/ e = ValueError)
       /\ exists w, EXECInstruction w ∈ block
                    /\ create_waveform_struct self w (get_waveform_name w) = Raise e)
   \/ (exists c s world0,
         e = CallbackError c
         /\ register_pulse_callback self s world0 = (inl c, world env')
         /\ last (calls env') = Some s))
  /\ e <> KeyError /\ e <> IndexError /\ e <> AttributeError.
Proof.
  intros Hrun.
  assert ((e = Exception branching_message /\ env' = env
           /\ exists x, x ∈ block /\ is_EXECInstruction x = false)
          \/ ((e = OverflowError \/ e = ValueError)
              /\ exists w, EXECInstruction w ∈ block
                           /\ create_waveform_struct self w (get_waveform_name w) = Raise e)
          \/ (exists c s world0,
                e = CallbackError c
                /\ register_pulse_callback self s world0 = (inl c, world env')
                /\ last (calls env') = Some s)) as Hcause.
  { destruct (forallb is_EXECInstruction block) eqn:Hall.
    - right. destruct (all_EXEC_inv block Hall) as [ws ->].
      rewrite create_pulse_group_EXEC in Hrun. destruct ws as [|w ws]; [discriminate|].
      unfold bind, ret in Hrun.
      destruct (for_each _ _ _ _) as [[st'|e1] env1] eqn:Hloop; [discriminate|].
      injection Hrun as <- <-.
      apply loop_raises_cause in Hloop as [(w' & Hw' & Hfail) | Hcb];
        [| right; exact Hcb | apply initial_group_well_formed].
      left. split.
      + destruct (create_waveform_struct_raises _ _ _ _ Hfail); auto.
      + exists w'. split; [|exact Hfail].
        apply (list_elem_of_fmap_2 EXECInstruction). exact Hw'.
    - left. rewrite (create_pulse_group_invalid _ _ _ _ Hall) in Hrun.
      injection Hrun as <- <-. split; [reflexivity|]. split; [reflexivity|].
      apply forallb_false_elem. exact Hall. }
  split; [exact Hcause|].
  destruct Hcause as [(-> & _) | [([-> | ->] & _) | (c & s & world0 & -> & _)]];
    repeat split; discriminate.
Qed.

(** X5. A failed call stays failed however the block goes on: if a block of
    EXEC instructions raises, every block of EXEC instructions that extends
    it raises the same exception in the same environment; the instructions
    after the failing one are never visited. *)
Theorem create_pulse_group_fails_on_extension self ws ws' name0 env e env' :
  create_pulse_group self (execs ws) name0 env = (Raise e, env') ->
  create_pulse_group self (execs (ws ++ ws')) name0 env = (Raise e, env').
Proof.
  intros Hrun. destruct ws as [|w ws]; [discriminate|].
  rewrite create_pulse_group_EXEC_nonempty in Hrun by discriminate.
  rewrite create_pulse_group_EXEC_nonempty by discriminate.
  unfold bind in *. rewrite for_each_app. unfold bind.
  destruct (for_each (loop_body self) (w :: ws) _ env) as [[st'|e1] env1];
    [discriminate | exact Hrun].
Qed.

(** ** Registrations persist and are not shared *)

(** X6. A failure of the callback does not undo the registrations made
    before it: if the block [ws] compiles and leaves the environment [env1],
    and the callback raises on the struct of a waveform [w] that [ws] does not
    play, then every block that goes on with [w] after [ws] raises the
    exception of the callback in [env1] extended by the failed invocation. *)
Theorem create_pulse_group_callback_failure self ws w ws' name0 env v env1 s c world' :
  create_pulse_group self (execs ws) name0 env = (Return v, env1) ->
  w ∉ ws ->
  create_waveform_struct self w (get_waveform_name w) = Return s ->
  register_pulse_callback self s (world env1) = (inl c, world') ->
  create_pulse_group self (execs (ws ++ w :: ws')) name0 env
  = (Raise (CallbackError c), {| world := world'; calls := calls env1 ++ [s] |}).
Proof. apply create_pulse_group_callback_raises. Qed.

Lemma structs_unique self ws (ss1 ss2 : list (WaveformStruct F)) :
  Forall2 (fun w s => create_waveform_struct self w (get_waveform_name w) = Return s) ws ss1 ->
  Forall2 (fun w s => create_waveform_struct self w (get_waveform_name w) = Return s) ws ss2 ->
  ss1 = ss2.
Proof.
  intros Hss1. revert ss2. induction Hss1 as [|w s ws ss1 Hs _ IH]; intros ss2 Hss2.
  - apply Forall2_nil_inv_l in Hss2. congruence.
  - apply Forall2_cons_inv_l in Hss2 as (s' & ss2' & Hs' & Hss2 & ->).
    f_equal; [congruence | apply IH; exact Hss2].
Qed.

(** X7. The registry lives for one call only: a second call on the same
    block invokes the callback again on the structs of its distinct
    waveforms, the same as the first call did. *)
Theorem create_pulse_group_registers_again self ws name0 name1 env g1 env1 g2 env2 :
  create_pulse_group self (execs ws) name0 env = (Return (PyDict g1), env1) ->
  create_pulse_group self (execs ws) name1 env1 = (Return (PyDict g2), env2) ->
  exists ss,
    calls env1 = calls env ++ ss
    /\ calls env2 = calls env ++ ss ++ ss
    /\ length ss = length (first_occurrences ∅ ws).
Proof.
  intros Hrun1 Hrun2.
  destruct (create_pulse_group_returns _ _ _ _ _ _ Hrun1)
    as (ws1 & Heq1 & _ & _ & _ & _ & _ & _ & ss1 & Hcalls1 & Hss1).
  destruct (create_pulse_group_returns _ _ _ _ _ _ Hrun2)
    as (ws2 & Heq2 & _ & _ & _ & _ & _ & _ & ss2 & Hcalls2 & Hss2).
  apply (f_equal (omap waveform_of)) in Heq1, Heq2.
  rewrite !omap_waveform_of_EXEC in Heq1, Heq2. subst ws1 ws2.
  rewrite (structs_unique _ _ _ _ Hss2 Hss1) in Hcalls2.
  exists ss1. split; [exact Hcalls1|]. split.
  - rewrite Hcalls2, Hcalls1, <- app_assoc. reflexivity.
  - symmetry. eapply Forall2_length. exact Hss1.
Qed.

(** ** Playing a registered waveform again *)

(** X8. Playing once more a waveform that the block has already played, at
    whatever distance, never invokes the callback: the environment is the one
    the shorter block leaves. The id emitted is the one the earlier
    executions of the waveform decode to; it increments the last repeat count
    if it is the last pulse, and is appended with count 1 otherwise. *)
Theorem create_pulse_group_replay self ws w name0 env g env1 :
  create_pulse_group self (execs ws) name0 env = (Return (PyDict g), env1) ->
  w ∈ ws ->
  exists id g',
    (forall k : nat, ws !! k = Some w -> expand (pulses g) (nrep g) !! k = Some id)
    /\ create_pulse_group self (execs (ws ++ [w])) name0 env = (Return (PyDict g'), env1)
    /\ ((last (pulses g) = Some id /\ pulses g' = pulses g
         /\ exists ns n, nrep g = ns ++ [n] /\ nrep g' = ns ++ [n + 1])
        \/ (last (pulses g) <> Some id /\ pulses g' = pulses g ++ [id]
            /\ nrep g' = nrep g ++ [1])).
Proof.
  intros Hrun Hw.
  destruct (create_pulse_group_returns _ _ _ _ _ _ Hrun) as (_ & _ & _ & Hwf & _).
  destruct (create_pulse_group_loop _ _ _ _ _ _ Hrun) as (st1 & Hloop & <-).
  pose proof Hloop as Hreg.
  apply loop_registry in Hreg as (_ & (ids & Hexp & Hids) & _);
    [|apply initial_group_well_formed].
  simpl in Hexp. rewrite <- Hexp in Hids. clear Hexp ids.
  apply list_elem_of_lookup in Hw as [k0 Hk0].
  destruct (Forall2_lookup_l _ _ _ _ _ Hids Hk0) as (id & _ & Hid).
  assert (exists g',
            repeat_or_append (E:=E) (pulse_group st1) id = Return g'
            /\ ((last (pulses (pulse_group st1)) = Some id
                 /\ pulses g' = pulses (pulse_group st1)
                 /\ exists ns n, nrep (pulse_group st1) = ns ++ [n]
                                 /\ nrep g' = ns ++ [n + 1])
                \/ (last (pulses (pulse_group st1)) <> Some id
                    /\ pulses g' = pulses (pulse_group st1) ++ [id]
                    /\ nrep g' = nrep (pulse_group st1) ++ [1])))
    as (g' & Hstep & Hshape).
  { destruct (decide (last (pulses (pulse_group st1)) = Some id)) as [Hlast|Hlast].
    - pose proof Hlast as Hps. apply last_Some in Hps as [ps Hps].
      destruct (last (nrep (pulse_group st1))) as [n|] eqn:Hn.
      2:{ apply last_None in Hn. destruct Hwf as [Hlen _].
          rewrite Hps, Hn, length_app in Hlen. simpl in Hlen. lia. }
      apply last_Some in Hn as [ns Hn]. eexists.
      split; [apply (repeat_or_append_repeat _ id ps ns n Hps Hn)|].
      left. simpl. eauto 10.
    - eexists. split; [apply repeat_or_append_append; exact Hlast|]. right. simpl. auto. }
  exists id, g'. split.
  { intros k Hk. destruct (Forall2_lookup_l _ _ _ _ _ Hids Hk) as (id' & Hk' & Hid').
    rewrite Hk'. congruence. }
  split; [|exact Hshape].
  rewrite create_pulse_group_EXEC_nonempty by (destruct ws; discriminate).
  unfold bind at 1. rewrite for_each_app. unfold bind at 1. rewrite Hloop.
  cbn [for_each]. unfold bind, ret.
  rewrite (loop_body_known self w st1 env1 id Hid), Hstep. reflexivity.
Qed.

(** ** What the callback is handed *)

(** X9. A returned pulse group carries the name given by the caller, while
    every struct the call hands to the callback is named [wf_] followed by
    the decimal hash of a waveform of the block, is clocked at the configured
    sample rate, and has a marker of zeros as long as its samples. *)
Theorem create_pulse_group_names self ws name0 env g env' :
  create_pulse_group self (execs ws) name0 env = (Return (PyDict g), env') ->
  name g = name0
  /\ exists ss,
       calls env' = calls env ++ ss
       /\ Forall (fun s => exists w,
                    w ∈ ws
                    /\ ws_name s = "wf_" +:+ str_of_int (hash w)
                    /\ clk (data s) = sample_rate self
                    /\ marker (data s) = replicate (length (wf (data s))) (of_int 0)) ss.
Proof.
  intros Hrun.
  destruct (create_pulse_group_returns _ _ _ _ _ _ Hrun)
    as (ws' & Heq & _ & _ & _ & Hname & _ & _ & ss & Hcalls & Hss).
  apply (f_equal (omap waveform_of)) in Heq. rewrite !omap_waveform_of_EXEC in Heq.
  subst ws'. split; [exact Hname|]. exists ss. split; [exact Hcalls|].
  apply Forall_forall. intros s Hs. apply list_elem_of_lookup in Hs as [k Hk].
  destruct (Forall2_lookup_r _ _ _ _ _ Hss Hk) as (w & Hw & Hstruct).
  exists w. split.
  { apply (list_elem_of_lookup_2 _ k) in Hw.
    apply first_occurrences_elem in Hw as [Hw _]. exact Hw. }
  unfold create_waveform_struct in Hstruct.
  destruct (sample_times self w) as [times|e]; [|discriminate].
  injection Hstruct as <-. simpl. repeat split. apply zeros_like_replicate.
Qed.

(** ** Waveform names *)

Lemma str_of_int_parses (z : Z) :
  NilZero.int_of_string (str_of_int z) = Some (Z.to_int z).
Proof.
  unfold str_of_int. apply NilZero.isi; destruct z; try discriminate; simpl.
  - intros [= Hnil]. revert Hnil. apply DecimalPos.Unsigned.to_uint_nonnil.
  - intros [= Hnil]. revert Hnil. apply DecimalPos.Unsigned.to_uint_nonnil.
Qed.

(** X11. The name of a waveform struct determines the hash of the waveform
    and nothing else: two waveforms get the same name exactly when their
    hashes are equal, so value-equal waveforms share their name and names
    collide only where hashes do. *)
Theorem get_waveform_name_inj (w1 w2 : Waveform) :
  get_waveform_name w1 = get_waveform_name w2 <-> hash w1 = hash w2.
Proof.
  unfold get_waveform_name. split; [|intros ->; reflexivity].
  intros Heq. apply (inj (String.app "wf_")) in Heq.
  apply (f_equal NilZero.int_of_string) in Heq. rewrite !str_of_int_parses in Heq.
  injection Heq as Heq. apply DecimalZ.to_int_inj. exact Heq.
Qed.

(** ** Size of the payload, longer blocks, ids that coincide *)

(** X12. For a waveform whose [sample] returns as many amplitudes as it is
    given times, the struct built by create_waveform_struct holds exactly
    floor((duration * time_scaling) * sample_rate) + 1 samples, the product
    being the one the floats of the interface compute (rounded twice in
    double precision), and as many marker entries. *)
Theorem create_waveform_struct_lengths self w name0 s :
  (forall times, length (sample w times) = length times) ->
  create_waveform_struct self w name0 = Return s ->
  exists z,
    floor (fmul (fmul (duration w) (time_scaling self)) (sample_rate self)) = Floored z
    /\ Z.of_nat (length (wf (data s))) = z + 1
    /\ length (marker (data s)) = length (wf (data s)).
Proof.
  intros Hsample Hs.
  destruct (create_waveform_struct_inv _ _ _ _ Hs) as (n & times & Hn & _ & _ & Hlen & ->).
  exists (n - 1). split; [apply sample_count_floor; exact Hn|]. cbn [wf marker data]. split.
  - rewrite (Hsample times). lia.
  - unfold zeros_like. apply length_fmap.
Qed.

(** X13. What a block compiles to does not depend on what follows it: when a
    block and an extension of it both compile, the extension decodes to the
    executions of the block followed by one id per added instruction, and the
    callback invocations of the block come first. *)
Theorem create_pulse_group_extension self ws ws' name0 env g env1 g' env2 :
  create_pulse_group self (execs ws) name0 env = (Return (PyDict g), env1) ->
  create_pulse_group self (execs (ws ++ ws')) name0 env = (Return (PyDict g'), env2) ->
  exists ids ss,
    expand (pulses g') (nrep g') = expand (pulses g) (nrep g) ++ ids
    /\ length ids = length ws'
    /\ calls env2 = calls env1 ++ ss.
Proof.
  intros Hrun Hrun'.
  destruct (create_pulse_group_returns _ _ _ _ _ _ Hrun) as (_ & _ & _ & Hwf & _).
  destruct (create_pulse_group_loop _ _ _ _ _ _ Hrun) as (st1 & Hloop & <-).
  destruct (create_pulse_group_loop _ _ _ _ _ _ Hrun') as (st2 & Hloop' & <-).
  rewrite for_each_app in Hloop'. unfold bind in Hloop'. rewrite Hloop in Hloop'.
  apply loop_registry in Hloop' as (_ & (ids & Hexp & Hids) & (ss & _ & Hcalls & _));
    [|exact Hwf].
  exists ids, ss. split; [exact Hexp|]. split; [|exact Hcalls].
  symmetry. eapply Forall2_length. exact Hids.
Qed.

(** X14. Pulses are merged by id, not by waveform: when the callback returns
    the same id for two distinct waveforms A and B, the block A, B compiles
    to a single pulse with repeat count 2, although both waveforms have been
    registered. *)
Theorem create_pulse_group_merges_equal_ids self name0 env (A B : Waveform)
    sA sB id world1 world2 :
  A <> B ->
  create_waveform_struct self A (get_waveform_name A) = Return sA ->
  create_waveform_struct self B (get_waveform_name B) = Return sB ->
  register_pulse_callback self sA (world env) = (inr id, world1) ->
  register_pulse_callback self sB world1 = (inr id, world2) ->
  create_pulse_group self (execs [A; B]) name0 env
  = (Return (PyDict {| pulses := [id]; nrep := [2]; name := name0;
                       chan := 1; ctrl := "notrig" |}),
     {| world := world2; calls := calls env ++ [sA; sB] |}).
Proof.
  intros HAB HsA HsB HcbA HcbB.
  rewrite create_pulse_group_EXEC. cbn [for_each]. unfold bind, ret.
  rewrite (loop_body_fresh self A _ env sA id world1);
    [|apply lookup_empty|exact HsA|exact HcbA].
  rewrite repeat_or_append_append by (simpl; congruence). cbn [pulses nrep name chan ctrl app].
  rewrite (loop_body_fresh self B _ _ sB id world2);
    [|simpl; rewrite lookup_insert_ne by exact HAB; apply lookup_empty|exact HsB|exact HcbB].
  cbn [pulse_group registered_waveforms world calls].
  rewrite (repeat_or_append_repeat _ id [] [] 1) by reflexivity.
  cbn [pulses nrep name chan ctrl app Z.add Pos.add].
  rewrite <- app_assoc. reflexivity.
Qed.

End InterfaceMore.

(** * The sample grid in exact arithmetic *)

Section ExactArithmetic.
Context `{WaveformClass Q Waveform} {World E : Type}.
Implicit Types (self : PulseControlInterface Q World E) (w : Waveform).







End ExactArithmetic.

(** * The further properties on the concrete interface *)

Lemma create_pulse_group_decodes_witness :
  exists ws (reg : gmap nat Z),
    Demo.block [1; 1; 2]%nat = EXECInstruction <$> ws
    /\ Forall2 (fun w id => reg !! w = Some id) ws (expand [0; 1] [2; 1]).
Proof.
  apply (create_pulse_group_decodes Demo.pci (Demo.block [1; 1; 2]%nat) "g" Demo.start
           {| pulses := [0; 1]; nrep := [2; 1]; name := "g"; chan := 1; ctrl := "notrig" |}
           (snd (Demo.run [1; 1; 2]%nat))).
  vm_compute. reflexivity.
Defined.

Lemma create_pulse_group_backend_witness :
  exists ss ids,
    calls (snd (Demo.run [1; 2; 1]%nat)) = calls Demo.start ++ ss
    /\ Forall2 (fun w s => create_waveform_struct Demo.pci w (get_waveform_name w) = Return s)
         (first_occurrences ∅ [1; 2; 1]%nat) ss
    /\ run_callback Demo.pci ss (world Demo.start)
       = Some (ids, world (snd (Demo.run [1; 2; 1]%nat)))
    /\ forall p, p ∈ [0; 1; 0] <-> p ∈ ids.
Proof.
  apply (create_pulse_group_backend (Other:=Demo.Branching) Demo.pci [1; 2; 1]%nat "g" Demo.start
           {| pulses := [0; 1; 0]; nrep := [1; 1; 1]; name := "g"; chan := 1;
              ctrl := "notrig" |}
           (snd (Demo.run [1; 2; 1]%nat))).
  vm_compute. reflexivity.
Defined.

Lemma create_pulse_group_nrep_positive_witness :
  Forall (fun n => 1 <= n) [2; 1; 1].
Proof.
  apply (create_pulse_group_nrep_positive Demo.pci (Demo.block [1; 1; 300; 1]%nat) "g"
           Demo.start
           {| pulses := [0; 1; 0]; nrep := [2; 1; 1]; name := "g"; chan := 1;
              ctrl := "notrig" |}
           (snd (Demo.run [1; 1; 300; 1]%nat))).
  vm_compute. reflexivity.
Defined.

Lemma create_pulse_group_raises_cause_witness :
  let block : list (Instruction nat Demo.Branching) :=
    [EXECInstruction 1%nat; OtherInstruction Demo.GOTOInstruction] in
  let e : PyExc unit := Exception branching_message in
  ((e = Exception branching_message /\ Demo.start = Demo.start
    /\ exists x, x ∈ block /\ is_EXECInstruction x = false)
   \/ ((e = OverflowError \/ e = ValueError)
       /\ exists w : nat,
            EXECInstruction w ∈ block
            /\ create_waveform_struct Demo.pci w (get_waveform_name w) = Raise e)
   \/ (exists c s world0,
         e = CallbackError c
         /\ register_pulse_callback Demo.pci s world0 = (inl c, world Demo.start)
         /\ last (calls Demo.start) = Some s))
  /\ e <> KeyError /\ e <> IndexError /\ e <> AttributeError.
Proof.
  apply (create_pulse_group_raises_cause Demo.pci
           [EXECInstruction 1%nat; OtherInstruction Demo.GOTOInstruction] "g" Demo.start).
  reflexivity.
Defined.

Lemma create_pulse_group_fails_on_extension_witness :
  fst (create_pulse_group Demo.pci_refusing (Demo.block ([1; 2] ++ [3; 1])%nat) "g" Demo.start)
  = Raise (CallbackError tt).
Proof.
  unfold Demo.block.
  rewrite (create_pulse_group_fails_on_extension Demo.pci_refusing [1; 2]%nat [3; 1]%nat
             "g" Demo.start (CallbackError tt)
             (snd (create_pulse_group Demo.pci_refusing (Demo.block [1; 2]%nat) "g"
                     Demo.start))).
  - reflexivity.
  - vm_compute. reflexivity.
Defined.

Lemma create_pulse_group_callback_failure_witness :
  fst (create_pulse_group Demo.pci_refusing (Demo.block ([1; 3] ++ 2 :: [1])%nat) "g"
         Demo.start)
  = Raise (CallbackError tt)
  /\ world (snd (create_pulse_group Demo.pci_refusing (Demo.block ([1; 3] ++ 2 :: [1])%nat)
                   "g" Demo.start)) = 2.
Proof.
  unfold Demo.block.
  erewrite (create_pulse_group_callback_failure Demo.pci_refusing [1; 3]%nat 2%nat [1]%nat
              "g" Demo.start).
  - split; reflexivity.
  - vm_compute. reflexivity.
  - intros Hin. apply elem_of_cons in Hin as [Heq|Hin]; [discriminate|].
    apply elem_of_cons in Hin as [Heq|Hin]; [discriminate|].
    apply elem_of_nil in Hin. exact Hin.
  - vm_compute. reflexivity.
  - vm_compute. reflexivity.
Defined.

Lemma create_pulse_group_registers_again_witness :
  exists ss,
    calls (snd (Demo.run [1; 2; 1]%nat)) = calls Demo.start ++ ss
    /\ calls (snd (create_pulse_group Demo.pci (Demo.block [1; 2; 1]%nat) "h"
                     (snd (Demo.run [1; 2; 1]%nat))))
       = calls Demo.start ++ ss ++ ss
    /\ length ss = length (first_occurrences ∅ [1; 2; 1]%nat).
Proof.
  apply (create_pulse_group_registers_again (Other:=Demo.Branching) Demo.pci [1; 2; 1]%nat
           "g" "h" Demo.start
           {| pulses := [0; 1; 0]; nrep := [1; 1; 1]; name := "g"; chan := 1;
              ctrl := "notrig" |}
           (snd (Demo.run [1; 2; 1]%nat))
           {| pulses := [2; 3; 2]; nrep := [1; 1; 1]; name := "h"; chan := 1;
              ctrl := "notrig" |}).
  - vm_compute. reflexivity.
  - vm_compute. reflexivity.
Defined.

Lemma create_pulse_group_replay_witness :
  exists id g',
    (forall k : nat, [3; 1; 2]%nat !! k = Some 1%nat -> expand [0; 1; 2] [1; 1; 1] !! k = Some id)
    /\ create_pulse_group Demo.pci (Demo.block ([3; 1; 2] ++ [1])%nat) "g" Demo.start
       = (Return (PyDict g'), snd (Demo.run [3; 1; 2]%nat))
    /\ ((last [0; 1; 2] = Some id /\ pulses g' = [0; 1; 2]
         /\ exists ns n, [1; 1; 1] = ns ++ [n] /\ nrep g' = ns ++ [n + 1])
        \/ (last [0; 1; 2] <> Some id /\ pulses g' = [0; 1; 2] ++ [id]
            /\ nrep g' = [1; 1; 1] ++ [1])).
Proof.
  apply (create_pulse_group_replay (Other:=Demo.Branching) Demo.pci [3; 1; 2]%nat 1%nat
           "g" Demo.start
           {| pulses := [0; 1; 2]; nrep := [1; 1; 1]; name := "g"; chan := 1;
              ctrl := "notrig" |}).
  - vm_compute. reflexivity.
  - apply elem_of_cons. right. apply elem_of_cons. left. reflexivity.
Defined.

Lemma create_pulse_group_names_witness :
  "g" = "g"
  /\ exists ss,
       calls (snd (Demo.run [1; 2; 1]%nat)) = calls Demo.start ++ ss
       /\ Forall (fun s => exists w : nat,
                    w ∈ [1; 2; 1]%nat
                    /\ ws_name s = "wf_" +:+ str_of_int (hash w)
                    /\ clk (data s) = sample_rate Demo.pci
                    /\ marker (data s) = replicate (length (wf (data s))) (of_int 0)) ss.
Proof.
  apply (create_pulse_group_names (Other:=Demo.Branching) Demo.pci [1; 2; 1]%nat "g"
           Demo.start
           {| pulses := [0; 1; 0]; nrep := [1; 1; 1]; name := "g"; chan := 1;
              ctrl := "notrig" |}).
  vm_compute. reflexivity.
Defined.


Lemma get_waveform_name_inj_witness :
  get_waveform_name 12%nat <> get_waveform_name 21%nat.
Proof.
  intros Heq. apply (get_waveform_name_inj 12%nat 21%nat) in Heq. discriminate Heq.
Defined.

Lemma create_waveform_struct_lengths_witness :
  exists s,
    create_waveform_struct Demo.pci_centi 29%nat "wf" = Return s
    /\ exists z,
         floor (fmul (fmul (duration 29%nat) (time_scaling Demo.pci_centi))
                  (sample_rate Demo.pci_centi)) = Floored z
         /\ Z.of_nat (length (wf (data s))) = z + 1
         /\ length (marker (data s)) = length (wf (data s)).
Proof.
  eexists. split; [vm_compute; reflexivity|].
  apply (create_waveform_struct_lengths Demo.pci_centi 29%nat "wf").
  - intros times. apply length_fmap.
  - vm_compute. reflexivity.
Defined.

Lemma create_pulse_group_extension_witness :
  exists ids ss,
    expand [0; 1; 0; 2] [1; 2; 1; 1] = expand [0; 1] [1; 2] ++ ids
    /\ length ids = length [1; 3]%nat
    /\ calls (snd (Demo.run ([1; 2; 2] ++ [1; 3])%nat))
       = calls (snd (Demo.run [1; 2; 2]%nat)) ++ ss.
Proof.
  apply (create_pulse_group_extension (Other:=Demo.Branching) Demo.pci [1; 2; 2]%nat
           [1; 3]%nat "g" Demo.start
           {| pulses := [0; 1]; nrep := [1; 2]; name := "g"; chan := 1; ctrl := "notrig" |}
           (snd (Demo.run [1; 2; 2]%nat))
           {| pulses := [0; 1; 0; 2]; nrep := [1; 2; 1; 1]; name := "g"; chan := 1;
              ctrl := "notrig" |}).
  - vm_compute. reflexivity.
  - vm_compute. reflexivity.
Defined.

Lemma create_pulse_group_merges_equal_ids_witness :
  fst (create_pulse_group Demo.pci_constant (Demo.block [1; 2]%nat) "g"
         {| world := tt; calls := [] |})
  = Return (PyDict {| pulses := [7]; nrep := [2]; name := "g"; chan := 1; ctrl := "notrig" |}).
Proof.
  unfold Demo.block.
  erewrite (create_pulse_group_merges_equal_ids Demo.pci_constant "g"
              {| world := tt; calls := [] |} 1%nat 2%nat _ _ 7 tt tt);
    [reflexivity | lia | vm_compute; reflexivity | vm_compute; reflexivity
     | reflexivity | reflexivity].
Defined.
